(** * react-deep: the demo components, embedded and checked

    The repository holds study notes on React and a handful of demo
    modules.  This development embeds the JavaScript modules:

    - [src/unnamed/part_003]   [App.jsx]: the counter and the form [action];
    - [src/unnamed/part_000]   [DataProvider.js]: [dataContext], [DataProvider];
    - [src/meeting-1/src/contex/one/DataConsumer.js]: the consumer;
    - [src/unnamed/part_004]   [Form], [ThemeContext], [useThemeContext];
    - [src/unnamed/part_008]   [ContextOne] and the colour page.

    React itself is the host framework and is not part of the repository.
    The part of it the modules call ([useState], [useContext],
    [createContext], [useActionState], providers) is modelled in the
    sections named "Framework". *)

From stdpp Require Import base option list strings gmap.
From Stdlib Require Import ZArith Lia.

Set Warnings "-register-all".
Open Scope string_scope.
Open Scope Z_scope.

(** ** JavaScript values *)

(** The values that flow through the modules.  A number is a double
    whose value is an integer; a string is a sequence of code units,
    one character of the Rocq string each.  [VSetState k] is the [set]
    function [useState] hands out for the state cell [k]; the set
    functions are the only functions among the values of the model. *)
Inductive value : Type :=
| VUndefined
| VNull
| VBool (b : bool)
| VNum (n : Z)
| VStr (s : string)
| VArr (items : list value)
| VObj (props : list (string * value))
| VSetState (k : nat).

(** [v === undefined] *)
Definition is_undefined (v : value) : bool :=
  match v with VUndefined => true | _ => false end.

(** [typeof v === "function"] *)
Definition is_function (v : value) : bool :=
  match v with VSetState _ => true | _ => false end.

(** The double nearest to the integer [z], ties to the even mantissa: a
    double has 53 bits of mantissa, so an integer below 2^53 in size is
    kept, and a larger one is rounded to a multiple of the power of two
    that leaves 53 bits.  The sizes at which a double overflows, 2^1024
    and above, are out of the reach of the modules. *)
Definition to_double (z : Z) : Z :=
  let a := Z.abs z in
  if a <? 2 ^ 53 then z
  else
    let e := Z.log2 a - 52 in
    let q := a / 2 ^ e in
    let r := a mod 2 ^ e in
    let half := 2 ^ (e - 1) in
    let q' := if (half <? r) || ((r =? half) && Z.odd q) then q + 1 else q in
    Z.sgn z * (q' * 2 ^ e).

(** [!v], negated: the values that count as true in a condition. *)
Definition truthy (v : value) : bool :=
  match v with
  | VUndefined | VNull => false
  | VBool b => b
  | VNum n => negb (n =? 0)
  | VStr s => negb (String.eqb s "")
  | VArr _ | VObj _ | VSetState _ => true
  end.

(** [o?.name]: the property of an object literal, [undefined] when [o] is
    [undefined] or [null] or has no such property.  An object lists each
    of its property names once. *)
Definition opt_prop (o : value) (name : string) : value :=
  match o with
  | VObj props =>
      match find (fun p => String.eqb (fst p) name) props with
      | Some p => snd p
      | None => VUndefined
      end
  | _ => VUndefined
  end.

(** ** Computations *)

(** What a thrown value is: an error the JavaScript runtime raises by
    itself, or an [Error] object a module constructs and throws. *)
Inductive error : Type :=
| TypeError (msg : string)
| UserError (msg : string).

(** The framework hooks the modules call. *)
Inductive hook_kind : Type := UseState | UseContext | UseActionState.

(** The run of a function body.  [Await ms k] is the statement
    [await new Promise(resolve => setTimeout(resolve, ms))] followed by
    [k]; [Hook h k] marks a call of the framework hook [h]. *)
Inductive comp (A : Type) : Type :=
| Ret (a : A)
| Throw (e : error)
| Await (ms : Z) (k : comp A)
| Hook (h : hook_kind) (k : comp A).
Arguments Ret {A} a.
Arguments Throw {A} e.
Arguments Await {A} ms k.
Arguments Hook {A} h k.

Fixpoint comp_bind {A B : Type} (f : A -> comp B) (c : comp A) : comp B :=
  match c with
  | Ret a => f a
  | Throw e => Throw e
  | Await ms k => Await ms (comp_bind f k)
  | Hook h k => Hook h (comp_bind f k)
  end.

#[global] Instance comp_ret : MRet comp := @Ret.
#[global] Instance comp_mbind : MBind comp := @comp_bind.
#[global] Instance comp_fmap : FMap comp :=
  fun A B f => comp_bind (fun a => Ret (f a)).

(** The timers a run waits for, the hooks it calls, and how it ends. *)
Fixpoint timers {A : Type} (c : comp A) : list Z :=
  match c with
  | Ret _ | Throw _ => []
  | Await ms k => ms :: timers k
  | Hook _ k => timers k
  end.

Fixpoint hooks {A : Type} (c : comp A) : list hook_kind :=
  match c with
  | Ret _ | Throw _ => []
  | Await _ k => hooks k
  | Hook h k => h :: hooks k
  end.

Fixpoint outcome {A : Type} (c : comp A) : A + error :=
  match c with
  | Ret a => inl a
  | Throw e => inr e
  | Await _ k | Hook _ k => outcome k
  end.

(** ** Framework: form data *)

(** An entry of a submitted form is a string or a file; the entries are
    kept in document order. *)
Inductive entry : Type :=
| Text (s : string)
| File (name : string).

Definition FormData : Type := list (string * entry).

(** [formData.get(name)]: the first entry of that name; [None] is the
    [null] the browser returns when there is none. *)
Definition formData_get (formData : FormData) (name : string) : option entry :=
  snd <$> find (fun e => String.eqb (fst e) name) formData.

(** ** [action] (App.jsx) *)

(** [x.length] on what [formData.get] returned: the length of a string,
    [undefined] ([None]) on a file, a [TypeError] on [null]. *)
Definition get_length (x : option entry) : comp (option Z) :=
  match x with
  | Some (Text s) => Ret (Some (Z.of_nat (String.length s)))
  | Some (File _) => Ret None
  | None => Throw (TypeError "Cannot read properties of null (reading 'length')")
  end.

(** [len < n]: a comparison with [undefined] is false. *)
Definition less_than (len : option Z) (n : Z) : bool :=
  match len with
  | Some m => m <? n
  | None => false
  end.

(** [`${x}`] on what [formData.get] returned. *)
Definition template (x : option entry) : string :=
  match x with
  | Some (Text s) => s
  | Some (File _) => "[object File]"
  | None => "null"
  end.

Definition failure_message : string :=
  "Username must be at least 3 characters long".

Definition action (preState : value) (formData : FormData) : comp value :=
  Await 1000 (
    let username := formData_get formData "username" in
    let id := formData_get formData "id" in
    len ← get_length username;
    if less_than len 3 then
      Ret (VObj [("success", VBool false); ("message", VStr failure_message)])
    else
      Ret (VObj [("success", VBool true);
                 ("message",
                  VStr ("User " +:+ template id +:+ " updated to "
                        +:+ template username))])).

(** ** Framework: contexts *)

(** A context object: [ctx_key] is its identity, [ctx_default] the
    argument of [createContext]. *)
Record context : Type := createContext { ctx_key : nat; ctx_default : value }.

(** The values of the providers above a component, by context; a
    provider nearer to the component replaces one further up. *)
Definition provide (c : context) (v : value) (env : gmap nat value) : gmap nat value :=
  <[ctx_key c := v]> env.

(** [useContext(c)]: the value of the nearest provider of [c], and the
    default of [c] only when there is no provider. *)
Definition useContext (c : context) (env : gmap nat value) : comp value :=
  Hook UseContext (Ret (default (ctx_default c) (env !! ctx_key c))).

(** ** Framework: state cells *)

Section Cell.
Context {S : Type}.

(** The argument of a [set] call: the next state, or an updater. *)
Inductive update : Type :=
| SetTo (next : S)
| SetWith (updater : S -> S).

(** A state cell: the committed state and the [set] calls made since
    the last render, oldest first. *)
Record cell : Type := Cell { current : S; pending : list update }.

Definition new_cell (init : S) : cell := Cell init [].

(** The [set] function: it queues the update and changes nothing else. *)
Definition dispatch (u : update) (c : cell) : cell :=
  Cell (current c) (pending c ++ [u]).

Definition reduce (s : S) (u : update) : S :=
  match u with
  | SetTo next => next
  | SetWith updater => updater s
  end.

(** What the framework does with the queue when it renders. *)
Definition flush (c : cell) : cell :=
  Cell (fold_left reduce (pending c) (current c)) [].

(** [useState(init)]: [slot] is the cell of an earlier render, if
    any.  The hook returns the state and leaves the cell of this
    render, which is what the returned [set] function is bound to. *)
Definition useState (init : S) (slot : option cell) : comp (S * cell) :=
  let c := flush (default (new_cell init) slot) in
  Hook UseState (Ret (current c, c)).
End Cell.
Arguments update S : clear implicits.
Arguments cell S : clear implicits.

(** The cells whose [set] function is passed around as a value, by the
    key the value carries. *)
Definition setState (k : nat) (u : update value)
    (store : gmap nat (cell value)) : gmap nat (cell value) :=
  alter (dispatch u) k store.

(** [fn(arg)] for the values of the model, with an argument that is not
    itself a function: a [set] function queues the argument; every
    other value of the model is not a function, and calling it is a
    [TypeError]. *)
Definition call (fn arg : value) (store : gmap nat (cell value))
    : comp (gmap nat (cell value)) :=
  match fn with
  | VSetState k => Ret (setState k (SetTo arg) store)
  | _ => Throw (TypeError "setData is not a function")
  end.

(** ** Framework: action state *)

(** The cell of [useActionState]: the state and the submissions that
    wait for their run of the action, oldest first. *)
Record action_cell : Type :=
  ActionCell { state : value; submitted : list FormData }.

Definition isPending (c : action_cell) : bool :=
  match submitted c with [] => false | _ :: _ => true end.

Definition useActionState (initialState : value) (slot : option action_cell)
    : comp (value * bool * action_cell) :=
  let c := default (ActionCell initialState []) slot in
  Hook UseActionState (Ret (state c, isPending c, c)).

(** [formAction(formData)]: the submission is queued. *)
Definition formAction (formData : FormData) (c : action_cell) : action_cell :=
  ActionCell (state c) (submitted c ++ [formData]).

(** The framework runs the action on the oldest submission, with the
    state the run before it left, and stores what it returns. *)
Definition settle (fn : value -> FormData -> comp value) (c : action_cell)
    : comp action_cell :=
  match submitted c with
  | [] => Ret c
  | formData :: rest =>
      next ← fn (state c) formData;
      Ret (ActionCell next rest)
  end.

(** ** Elements *)

(** The components: those of the repository, then those the modules
    import from files that are not part of the sources. *)
Inductive component : Type :=
| CApp | CDataProvider | CDataConsumer | CForm | CContextOne | CColorPage
| CNested | CColorContextProvider | CColorSummary | CColorOptions.

(** What a component returns.  [Val v] is [{v}], [Provide c v kids] is
    [<c.Provider value={v}>kids</c.Provider>], [Use c kids] is
    [<c>kids</c>]. *)
Inductive node : Type :=
| Txt (s : string)
| Val (v : value)
| El (tag : string) (attrs : list (string * value)) (kids : list node)
| Frag (kids : list node)
| Provide (c : context) (v : value) (kids : list node)
| Use (c : component) (kids : list node).

(** ** [ThemeContext], [useThemeContext] and [Form] *)

Definition ThemeContext : context := createContext 1 VNull.

Definition useThemeContext (env : gmap nat value) : comp value :=
  context ← useContext ThemeContext env;
  if is_undefined context then
    Throw (UserError "useThemeContext must be used with a ThemeContext")
  else
    Ret context.

Definition Form (env : gmap nat value) : comp node :=
  contextValue ← useContext ThemeContext env;
  Ret (El "form" [("className", VStr "flex flex-col gap-2")]
         [El "input" [("type", VStr "hidden"); ("name", contextValue)] [];
          El "input" [("type", VStr "text"); ("name", VStr "username")] []]).

(** ** [dataContext] and [DataProvider] (DataProvider.js) *)

Definition dataContext : context := createContext 0 VUndefined.

(** [self] is the key of the state cell of this instance; [VSetState self]
    is the [setData] it passes on. *)
Definition DataProvider (self : nat) (children : list node)
    (slot : option (cell value)) : comp (node * cell value) :=
  '(data, c) ← useState (VStr "This is the data!") slot;
  let setData := VSetState self in
  Ret (Provide dataContext (VArr [data; setData]) children, c).

(** ** The consumer (DataConsumer.js) *)

(** [const [a, b] = v]: the first two items of an array or characters of
    a string; a value that cannot be iterated is a [TypeError]. *)
Definition destructure2 (v : value) : comp (value * value) :=
  match v with
  | VArr items =>
      Ret (default VUndefined (items !! 0%nat),
           default VUndefined (items !! 1%nat))
  | VStr s =>
      let chars := (fun a => VStr (String a "")) <$> String.list_ascii_of_string s in
      Ret (default VUndefined (chars !! 0%nat),
           default VUndefined (chars !! 1%nat))
  | _ => Throw (TypeError "undefined is not iterable")
  end.

(** The consumer returns its elements; [consumer_onClick] is the arrow
    function it puts on the button. *)
Record consumer : Type := Consumer {
  consumer_view : node;
  consumer_onClick : gmap nat (cell value) -> comp (gmap nat (cell value))
}.

Definition DataConsumer (env : gmap nat value) : comp consumer :=
  pair ← useContext dataContext env;
  '(data, setData) ← destructure2 pair;
  Ret (Consumer
         (Frag [El "h3" [] [Txt "This is the consumer"];
                El "p" [] [El "strong" [] [Txt "Data:"]; Txt " "; Val data];
                El "button" [] [Txt "Click to change data!"]])
         (call setData (VStr "Data has changed!"))).

(** ** [App] (App.jsx) *)

(** [const id = 1] *)
Definition App_id : value := VNum 1.

(** The hook cells of [App], in the order of its hook calls; [None]
    before the first render. *)
Record AppHooks : Type :=
  MkAppHooks { count_slot : option (cell Z); form_slot : option action_cell }.

(** The elements [App] returns, for the values its hooks gave it. *)
Definition App_view (count : Z) (state : value) (isPending : bool) : node :=
  let message := opt_prop state "message" in
  Frag
    [El "div" []
       [El "a" [("href", VStr "https://vite.dev"); ("target", VStr "_blank")]
          [El "img" [("className", VStr "logo"); ("alt", VStr "Vite logo")] []];
        El "a" [("href", VStr "https://react.dev"); ("target", VStr "_blank")]
          [El "img" [("className", VStr "logo react"); ("alt", VStr "React logo")] []]];
     El "h1" [] [Txt "Reza Mirj"];
     El "div" [("className", VStr "card")]
       [El "button" [] [Txt "count is "; Val (VNum count)];
        El "p" [] [Txt "Edit "; El "code" [] [Txt "src/App.jsx"];
                   Txt " and save to test HMR"];
        El "form" [("className", VStr "flex flex-col gap-2")]
          [El "input" [("type", VStr "hidden"); ("name", VStr "id");
                       ("value", App_id)] [];
           El "input" [("type", VStr "text"); ("name", VStr "username")] [];
           El "button" [("type", VStr "submit")]
             [Txt (if isPending then "Submitting..." else "Submit")];
           if truthy message then
             El "p" [("className",
                      VStr (if truthy (opt_prop state "success")
                            then "text-green-500" else "text-red-500"))]
               [Val message]
           else Val message]];
     El "p" [("className", VStr "read-the-docs")]
       [Txt "Click on the Vite and React logos to learn more"]].

Definition App (h : AppHooks) : comp (node * AppHooks) :=
  '(count, c) ← useState 0 (count_slot h);
  '(state, isPending, f) ← useActionState VUndefined (form_slot h);
  Ret (App_view count state isPending, MkAppHooks (Some c) (Some f)).

(** [(count) => count + 1]: the sum of two doubles is the double nearest
    to the exact sum. *)
Definition increment (count : Z) : Z := to_double (count + 1).

(** [() => setCount((count) => count + 1)] *)
Definition App_onClick (h : AppHooks) : AppHooks :=
  MkAppHooks (dispatch (SetWith increment) <$> count_slot h) (form_slot h).

(** The form hands its entries to [formAction]: the hidden [id] input,
    whose value is [App_id], and the text typed into [username]. *)
Definition App_form (username : string) : FormData :=
  [("id", Text "1"); ("username", Text username)].

Definition App_onSubmit (formData : FormData) (h : AppHooks) : AppHooks :=
  MkAppHooks (count_slot h) (formAction formData <$> form_slot h).

(** The framework runs [action], the function [App] gave to
    [useActionState], on the oldest submission. *)
Definition App_settle (h : AppHooks) : comp AppHooks :=
  match form_slot h with
  | Some c => c' ← settle action c; Ret (MkAppHooks (count_slot h) (Some c'))
  | None => Ret h
  end.

(** What happens to a mounted [App]: a click on the counter button, a
    render, a submission of the form with some text typed in, and the
    run of the action on the oldest submission. *)
Inductive App_event : Type :=
| Click
| Render
| Submit (username : string)
| Settle.

Definition App_step (e : App_event) (h : AppHooks) : comp AppHooks :=
  match e with
  | Click => Ret (App_onClick h)
  | Render => snd <$> App h
  | Submit username => Ret (App_onSubmit (App_form username) h)
  | Settle => App_settle h
  end.

Fixpoint App_play (es : list App_event) (h : AppHooks) : comp AppHooks :=
  match es with
  | [] => Ret h
  | e :: rest => h' ← App_step e h; App_play rest h'
  end.

Definition is_click (e : App_event) : bool :=
  match e with Click => true | _ => false end.

(** ** [ContextOne] and the colour page (ContextOne.js, part_008) *)

Definition ContextOne : node :=
  Use CDataProvider [El "h1" [] [Txt "Hello!"]; Use CNested []].

Definition ColorPage : node :=
  Use CColorContextProvider [Use CColorSummary []; Use CColorOptions []].

(** ** Framework: rendering a tree *)

(** The state the framework keeps between renders: the hook cells of
    [App], the cells of the [DataProvider] instances by key, the key of
    the next instance met in this pass, and the click handlers the
    consumers of this pass put on their buttons. *)
Record fibers : Type := Fibers {
  app_hooks : AppHooks;
  store : gmap nat (cell value);
  next : nat;
  clicks : list (gmap nat (cell value) -> comp (gmap nat (cell value)))
}.

(** Components are called down to [depth] levels below the node; an
    element of a component whose source is absent stays as it is. *)
Fixpoint render (depth : nat) (env : gmap nat value) (n : node) (w : fibers)
    : comp (node * fibers) :=
  match depth with
  | O => Ret (n, w)
  | S d =>
      match n with
      | Txt _ | Val _ => Ret (n, w)
      | El tag attrs kids =>
          '(kids', w') ← render_all d env kids w; Ret (El tag attrs kids', w')
      | Frag kids =>
          '(kids', w') ← render_all d env kids w; Ret (Frag kids', w')
      | Provide c v kids =>
          '(kids', w') ← render_all d (provide c v env) kids w;
          Ret (Provide c v kids', w')
      | Use CApp _ =>
          '(out, h) ← App (app_hooks w);
          render d env out (Fibers h (store w) (next w) (clicks w))
      | Use CDataProvider kids =>
          let self := next w in
          '(out, c) ← DataProvider self kids (store w !! self);
          render d env out
            (Fibers (app_hooks w) (<[self := c]> (store w)) (S self) (clicks w))
      | Use CDataConsumer _ =>
          out ← DataConsumer env;
          render d env (consumer_view out)
            (Fibers (app_hooks w) (store w) (next w) (clicks w ++ [consumer_onClick out]))
      | Use CForm _ => out ← Form env; render d env out w
      | Use CContextOne _ => render d env ContextOne w
      | Use CColorPage _ => render d env ColorPage w
      | Use _ _ => Ret (n, w)
      end
  end
with render_all (depth : nat) (env : gmap nat value) (ns : list node) (w : fibers)
    : comp (list node * fibers) :=
  match depth with
  | O => Ret (ns, w)
  | S d =>
      match ns with
      | [] => Ret ([], w)
      | n :: rest =>
          '(n', w1) ← render d env n w;
          '(rest', w2) ← render_all d env rest w1;
          Ret (n' :: rest', w2)
      end
  end.

(** A render pass from the root: no provider above, keys from 0, the
    handlers of the pass before forgotten. *)
Definition render_root (depth : nat) (n : node) (w : fibers) : comp (node * fibers) :=
  render depth ∅ n (Fibers (app_hooks w) (store w) 0 []).

(** ** The provider with the consumer below it *)

Definition demo : node := Use CDataProvider [Use CDataConsumer []].

(** A click on the button of the consumer that was rendered last. *)
Definition click (w : fibers) : comp fibers :=
  match clicks w with
  | onClick :: _ =>
      s ← onClick (store w); Ret (Fibers (app_hooks w) s (next w) (clicks w))
  | [] => Ret w
  end.

(** What happens to the demo: a render pass, or a click on the button
    of the consumer. *)
Inductive demo_event : Type :=
| DemoRender
| DemoClick.

Definition demo_step (e : demo_event) (w : fibers) : comp fibers :=
  match e with
  | DemoRender => snd <$> render_root 8 demo w
  | DemoClick => click w
  end.

Fixpoint demo_play (es : list demo_event) (w : fibers) : comp fibers :=
  match es with
  | [] => Ret w
  | e :: rest => w' ← demo_step e w; demo_play rest w'
  end.

(** ** The functions of the repository *)

(** Every function the JavaScript modules define, the arrow functions
    included. *)
Inductive repo_fn : Type :=
| fn_action                  (* App.jsx: async function action *)
| fn_App                     (* App.jsx: function App *)
| fn_App_onClick             (* App.jsx: () => setCount(...) *)
| fn_increment               (* App.jsx: (count) => count + 1 *)
| fn_DataProvider            (* DataProvider.js *)
| fn_DataConsumer            (* DataConsumer.js: the default export *)
| fn_DataConsumer_onClick    (* DataConsumer.js: () => setData(...) *)
| fn_Form                    (* part_004: function Form *)
| fn_useThemeContext         (* part_004: function useThemeContext *)
| fn_ContextOne_render       (* part_008: ContextOne.render *)
| fn_ColorPage.              (* part_008: the default export *)

(** Everything a call of one of them can depend on: its arguments, the
    providers above it, the hook cells and the values a closure caught. *)
Record input : Type := Input {
  in_env : gmap nat value;
  in_store : gmap nat (cell value);
  in_app : AppHooks;
  in_slot : option (cell value);
  in_self : nat;
  in_children : list node;
  in_preState : value;
  in_formData : FormData;
  in_count : Z;
  in_setData : value
}.

(** What a call returns: an object the function built itself, a value
    it passes on, a number, elements, or the cells a handler leaves. *)
Inductive result : Type :=
| RObject (v : value)
| RValue (v : value)
| RNum (n : Z)
| RNode (n : node)
| RApp (h : AppHooks)
| RStore (s : gmap nat (cell value)).

Definition run (f : repo_fn) (i : input) : comp result :=
  match f with
  | fn_action => RObject <$> action (in_preState i) (in_formData i)
  | fn_App => (fun out => RNode (fst out)) <$> App (in_app i)
  | fn_App_onClick => Ret (RApp (App_onClick (in_app i)))
  | fn_increment => Ret (RNum (increment (in_count i)))
  | fn_DataProvider =>
      (fun out => RNode (fst out))
        <$> DataProvider (in_self i) (in_children i) (in_slot i)
  | fn_DataConsumer =>
      (fun out => RNode (consumer_view out)) <$> DataConsumer (in_env i)
  | fn_DataConsumer_onClick =>
      RStore <$> call (in_setData i) (VStr "Data has changed!") (in_store i)
  | fn_Form => RNode <$> Form (in_env i)
  | fn_useThemeContext => RValue <$> useThemeContext (in_env i)
  | fn_ContextOne_render => Ret (RNode ContextOne)
  | fn_ColorPage => Ret (RNode ColorPage)
  end.

(** A failure the function itself reports: an [Error] it throws, or an
    object it built whose [success] is [false].  A [TypeError] is raised
    by the JavaScript runtime, not by the function. *)
Definition reports_failure (c : comp result) : bool :=
  match outcome c with
  | inr (UserError _) => true
  | inr (TypeError _) => false
  | inl (RObject v) =>
      match opt_prop v "success" with VBool false => true | _ => false end
  | inl _ => false
  end.

(** ** The components of the repository *)

(** What a component hands to the framework to be called later: a
    handler that acts on the cells reached through a context, a handler
    that acts on the cells of [App], or the function [useActionState]
    calls to compute the next state. *)
Inductive callback : Type :=
| OnStore (h : gmap nat (cell value) -> comp (gmap nat (cell value)))
| OnApp (h : AppHooks -> AppHooks)
| Reducer (f : value -> FormData -> comp value).

(** The hook cells a render leaves behind. *)
Inductive rendered_cells : Type :=
| NoCells
| AppCells (h : AppHooks)
| ProviderCell (c : cell value).

(** The functions [App] hands over: the arrow function it puts on
    [onClick] of the counter button, and [action], which it gives to
    [useActionState]. *)
Definition App_callbacks : list callback := [OnApp App_onClick; Reducer action].

(** The run of a component of the repository: the elements it returns,
    its callbacks and the hook cells it leaves.  [None] for a component
    whose source is absent. *)
Definition component_run (c : component)
    : option (input -> comp (node * list callback * rendered_cells)) :=
  match c with
  | CApp => Some (fun i =>
      (fun out => (fst out, App_callbacks, AppCells (snd out)))
        <$> App (in_app i))
  | CDataProvider => Some (fun i =>
      (fun out => (fst out, [], ProviderCell (snd out)))
        <$> DataProvider (in_self i) (in_children i) (in_slot i))
  | CDataConsumer => Some (fun i =>
      (fun out => (consumer_view out, [OnStore (consumer_onClick out)], NoCells))
        <$> DataConsumer (in_env i))
  | CForm => Some (fun i => (fun out => (out, [], NoCells)) <$> Form (in_env i))
  | CContextOne => Some (fun _ => Ret (ContextOne, [], NoCells))
  | CColorPage => Some (fun _ => Ret (ColorPage, [], NoCells))
  | CNested | CColorContextProvider | CColorSummary | CColorOptions => None
  end.

(** A cell after a render holds what the [set] calls queued before the
    render make of the state it held, and nothing is left in its queue;
    a cell that did not exist before is new. *)
Definition cell_kept {S : Type} (before : option (cell S)) (after : cell S) : Prop :=
  pending after = [] /\
  match before with
  | Some b => current after = fold_left reduce (pending b) (current b)
  | None => True
  end.

(** The cells a render leaves are the cells it found, changed by the
    queued [set] calls only; the action cell is the one it found. *)
Definition render_keeps (i : input) (cells : rendered_cells) : Prop :=
  match cells with
  | NoCells => True
  | AppCells h =>
      (exists c, count_slot h = Some c /\ cell_kept (count_slot (in_app i)) c) /\
      (exists f, form_slot h = Some f /\
                 match form_slot (in_app i) with
                 | Some b => f = b
                 | None => submitted f = []
                 end)
  | ProviderCell c => cell_kept (in_slot i) c
  end.

(** A callback that changes state through a framework setter only.  A
    handler is one [set] call, the same whatever the cells hold (when
    what it calls is not a function, the JavaScript runtime raises a
    [TypeError] in its place), and it leaves every committed state as it
    was.  A function that computes the next state does not build on the
    state it is handed: what it returns is the same whatever that state
    is. *)
Definition acts_by_setter (cb : callback) : Prop :=
  match cb with
  | OnStore h =>
      ((exists k u, forall s, h s = Ret (setState k u s)) \/
       (exists msg, forall s, h s = Throw (TypeError msg))) /\
      (forall s s' k, outcome (h s) = inl s' ->
                      current <$> (s' !! k) = current <$> (s !! k))
  | OnApp h =>
      (exists u, forall a,
         h a = MkAppHooks (dispatch u <$> count_slot a) (form_slot a)) /\
      (forall a, current <$> count_slot (h a) = current <$> count_slot a /\
                 state <$> form_slot (h a) = state <$> form_slot a)
  | Reducer f =>
      forall preState preState' formData,
        f preState formData = f preState' formData
  end.

(** A callback with no algorithm of its own: it acts by a setter, and a
    function that computes the next state returns the same state
    whatever it is given, at once. *)
Definition plain (cb : callback) : Prop :=
  acts_by_setter cb /\
  match cb with
  | Reducer f => exists r, forall preState formData, f preState formData = Ret r
  | _ => True
  end.

(** The layout of elements: the elements with every value taken out. *)
Fixpoint shape (n : node) : node :=
  match n with
  | Txt s => Txt s
  | Val _ => Val VUndefined
  | El tag attrs kids =>
      El tag ((fun a => (fst a, VUndefined)) <$> attrs) (shape <$> kids)
  | Frag kids => Frag (shape <$> kids)
  | Provide c _ kids => Provide c VUndefined (shape <$> kids)
  | Use c kids => Use c (shape <$> kids)
  end.

(** A thin wrapper.  Its source is there and it renders.  A render waits
    for nothing, calls at most one hook, reports no failure of its own,
    leaves the cells to the hook, and hands over callbacks with no
    algorithm of their own.  And its elements have one layout: whatever
    the input, the renders that return differ in the values shown only. *)
Definition thin (c : component) : Prop :=
  match component_run c with
  | None => False
  | Some body =>
      (exists i out, outcome (body i) = inl out) /\
      (forall i,
         timers (body i) = [] /\
         (length (hooks (body i)) <= 1)%nat /\
         match outcome (body i) with
         | inl (_, cbs, cells) => render_keeps i cells /\ Forall plain cbs
         | inr (TypeError _) => True
         | inr (UserError _) => False
         end) /\
      (forall i j,
         in_children i = in_children j ->
         match outcome (body i), outcome (body j) with
         | inl (view, cbs, _), inl (view', cbs', _) =>
             shape view = shape view' /\ length cbs = length cbs'
         | _, _ => True
         end)
  end.

(** The call of [action] on the form of [App] with [username] typed in,
    before [App] has any state. *)
Definition submission (username : string) : input :=
  Input ∅ ∅ (MkAppHooks None None) None 0 [] VUndefined (App_form username) 0 VUndefined.

(** ** Names used in the statements *)

(** The error [useThemeContext] constructs. *)
Definition provider_error : error :=
  UserError "useThemeContext must be used with a ThemeContext".

(** The elements of the consumer, for the data it read. *)
Definition consumer_screen (data : value) : node :=
  Frag [El "h3" [] [Txt "This is the consumer"];
        El "p" [] [El "strong" [] [Txt "Data:"]; Txt " "; Val data];
        El "button" [] [Txt "Click to change data!"]].

(** What the demo has on the screen for the data [data]: the provider
    element of the instance [self] around the elements of the consumer. *)
Definition demo_screen (self : nat) (data : value) : node :=
  Provide dataContext (VArr [data; VSetState self]) [consumer_screen data].

(** The argument of [useState] in [DataProvider] and the argument of
    [setData] in the consumer. *)
Definition initial_data : value := VStr "This is the data!".
Definition changed_data : value := VStr "Data has changed!".

(** The state [DataProvider] reads in a render that finds [slot]. *)
Definition provider_cell (slot : option (cell value)) : cell value :=
  flush (default (new_cell initial_data) slot).

(** The data a render of the demo reads from the cell of its provider. *)
Definition demo_data (w : fibers) : value :=
  current (provider_cell (store w !! 0%nat)).

(** The demo has rendered: its provider has a cell and its consumer has
    put its handler on the button. *)
Definition demo_ready (w : fibers) : Prop :=
  is_Some (store w !! 0%nat) /\
  clicks w = [call (VSetState 0) (VStr "Data has changed!")].

(** The count a render of [App] reads from the hook cells [h], and the
    action cell it reads. *)
Definition App_count (h : AppHooks) : Z :=
  current (flush (default (new_cell 0) (count_slot h))).

Definition App_form_cell (h : AppHooks) : action_cell :=
  default (ActionCell VUndefined []) (form_slot h).

(** [App] has rendered, and what waits in its action cell came from its
    own form. *)
Definition App_mounted (h : AppHooks) : Prop :=
  is_Some (count_slot h) /\
  exists f, form_slot h = Some f /\
            Forall (fun formData => exists username, formData = App_form username)
                   (submitted f).

(** A tree without component elements: nothing is left to call. *)
Fixpoint static (n : node) : bool :=
  match n with
  | Txt _ | Val _ => true
  | El _ _ kids | Frag kids | Provide _ _ kids => forallb static kids
  | Use _ _ => false
  end.

(** ** Names used in the further statements *)

(** The entries [action] reads. *)
Definition read_by_action (e : string * entry) : bool :=
  String.eqb (fst e) "username" || String.eqb (fst e) "id".

(** What [action] answers to the form of [App] with [username] typed in. *)
Definition verdict (username : string) : value :=
  if Z.of_nat (String.length username) <? 3 then
    VObj [("success", VBool false); ("message", VStr failure_message)]
  else
    VObj [("success", VBool true);
          ("message", VStr ("User 1 updated to " +:+ username))].

(** The events of [App] that concern its form. *)
Definition is_form_event (e : App_event) : bool :=
  match e with Submit _ | Settle => true | Click | Render => false end.

(** The action cell an event of [App] leaves. *)
Definition form_next (f : action_cell) (e : App_event) : action_cell :=
  match e with
  | Click | Render => f
  | Submit username => formAction (App_form username) f
  | Settle =>
      match submitted f with
      | [] => f
      | formData :: rest =>
          match outcome (action (state f) formData) with
          | inl next => ActionCell next rest
          | inr _ => f
          end
      end
  end.

(** In the elements of [App]: the children of the submit button, and
    the last child of the form, where the message goes. *)
Definition App_submit_label (view : node) : option (list node) :=
  match view with
  | Frag [_; _; El _ _ [_; _; El _ _ [_; _; El _ _ label; _]]; _] => Some label
  | _ => None
  end.

(** In the elements of [App]: the children of the counter button. *)
Definition App_counter (view : node) : option (list node) :=
  match view with
  | Frag [_; _; El _ _ [El _ _ counter; _; _]; _] => Some counter
  | _ => None
  end.

Definition App_feedback (view : node) : option node :=
  match view with
  | Frag [_; _; El _ _ [_; _; El _ _ [_; _; _; feedback]]; _] => Some feedback
  | _ => None
  end.

(** A provider below a provider, with the consumer below both. *)
Definition nested : node :=
  Use CDataProvider [Use CDataProvider [Use CDataConsumer []]].

(** The elements [Form] returns when the hidden input is named [name]. *)
Definition Form_view (name : value) : node :=
  El "form" [("className", VStr "flex flex-col gap-2")]
    [El "input" [("type", VStr "hidden"); ("name", name)] [];
     El "input" [("type", VStr "text"); ("name", VStr "username")] []].

(** What [nested] has on the screen for the data of the two providers. *)
Definition nested_screen (outer inner : value) : node :=
  Provide dataContext (VArr [outer; VSetState 0])
    [Provide dataContext (VArr [inner; VSetState 1]) [consumer_screen inner]].

(** * Properties *)

(** ** Computations *)

Lemma outcome_bind {A B : Type} (f : A -> comp B) (c : comp A) :
  outcome (c ≫= f) =
  match outcome c with inl a => outcome (f a) | inr e => inr e end.
Proof. induction c as [a|e|ms k IH|h k IH]; simpl; auto. Qed.

Lemma outcome_fmap {A B : Type} (f : A -> B) (c : comp A) :
  outcome (f <$> c) =
  match outcome c with inl a => inl (f a) | inr e => inr e end.
Proof. induction c as [a|e|ms k IH|h k IH]; simpl; auto. Qed.

Lemma timers_bind {A B : Type} (f : A -> comp B) (c : comp A) :
  timers (c ≫= f) =
  (timers c ++ match outcome c with inl a => timers (f a) | inr _ => [] end)%list.
Proof.
  induction c as [a|e|ms k IH|h k IH]; simpl; auto.
  f_equal. exact IH.
Qed.

Lemma timers_fmap {A B : Type} (f : A -> B) (c : comp A) :
  timers (f <$> c) = timers c.
Proof.
  induction c as [a|e|ms k IH|h k IH]; simpl; auto.
  f_equal. exact IH.
Qed.

Lemma hooks_fmap {A B : Type} (f : A -> B) (c : comp A) :
  hooks (f <$> c) = hooks c.
Proof.
  induction c as [a|e|ms k IH|h k IH]; simpl; auto.
  f_equal. exact IH.
Qed.

(** ** The modules on concrete inputs *)

Example action_on_short_username :
  action VUndefined (App_form "ab") =
  Await 1000 (Ret (VObj [("success", VBool false);
                         ("message", VStr "Username must be at least 3 characters long")])).
Proof. reflexivity. Qed.

Example action_on_long_username :
  action VUndefined (App_form "abc") =
  Await 1000 (Ret (VObj [("success", VBool true);
                         ("message", VStr "User 1 updated to abc")])).
Proof. reflexivity. Qed.

Example action_without_username :
  outcome (action VUndefined [("id", Text "1")]) =
  inr (TypeError "Cannot read properties of null (reading 'length')").
Proof. reflexivity. Qed.

Example action_on_file :
  outcome (action VUndefined [("id", Text "7"); ("username", File "a.txt")]) =
  inl (VObj [("success", VBool true);
             ("message", VStr "User 7 updated to [object File]")]).
Proof. reflexivity. Qed.

Example App_session :
  outcome (h ← App_play [Render; Click; Click; Submit "ab"; Settle]
                 (MkAppHooks None None);
           fst <$> App h) =
  inl (App_view 2
         (VObj [("success", VBool false);
                ("message", VStr "Username must be at least 3 characters long")])
         false).
Proof. reflexivity. Qed.

Example App_pending :
  outcome (h ← App_play [Render; Submit "reza"] (MkAppHooks None None);
           fst <$> App h) =
  inl (App_view 0 VUndefined true).
Proof. reflexivity. Qed.

Example consumer_without_provider :
  outcome (DataConsumer ∅) = inr (TypeError "undefined is not iterable").
Proof. reflexivity. Qed.

Example ContextOne_rendered :
  outcome (fst <$> render_root 8 (Use CContextOne [])
                     (Fibers (MkAppHooks None None) ∅ 0 [])) =
  inl (Provide dataContext (VArr [VStr "This is the data!"; VSetState 0])
         [El "h1" [] [Txt "Hello!"]; Use CNested []]).
Proof. reflexivity. Qed.

Example Form_without_provider :
  outcome (Form ∅) =
  inl (El "form" [("className", VStr "flex flex-col gap-2")]
         [El "input" [("type", VStr "hidden"); ("name", VNull)] [];
          El "input" [("type", VStr "text"); ("name", VStr "username")] []]).
Proof. reflexivity. Qed.

(** ** The form action *)

Lemma formData_get_App_form (username : string) :
  formData_get (App_form username) "username" = Some (Text username) /\
  formData_get (App_form username) "id" = Some (Text "1").
Proof. split; reflexivity. Qed.

Lemma action_preState (p q : value) (formData : FormData) :
  action p formData = action q formData.
Proof. reflexivity. Qed.

Lemma action_timers (preState : value) (formData : FormData) :
  timers (action preState formData) = [1000].
Proof.
  unfold action. simpl. f_equal.
  destruct (formData_get formData "username") as [[s|name]|]; simpl; auto.
  destruct (Z.of_nat (String.length s) <? 3); reflexivity.
Qed.

(** C8: a submission whose [username] and [id] fields are text is
    answered, after the timer, with the failure object exactly when the
    username has fewer than 3 characters, and otherwise with the success
    object whose message names both fields; the prior state plays no
    part. *)
Theorem action_validates_username
    (preState : value) (formData : FormData) (username id : string) :
  formData_get formData "username" = Some (Text username) ->
  formData_get formData "id" = Some (Text id) ->
  ((String.length username < 3)%nat ->
     action preState formData =
     Await 1000 (Ret (VObj [("success", VBool false);
                            ("message", VStr "Username must be at least 3 characters long")])))
  /\ ((3 <= String.length username)%nat ->
     action preState formData =
     Await 1000 (Ret (VObj [("success", VBool true);
                            ("message", VStr ("User " +:+ id +:+ " updated to " +:+ username))])))
  /\ (forall preState', action preState' formData = action preState formData).
Proof.
  intros Hu Hi. unfold action. rewrite Hu, Hi. simpl.
  split; [|split].
  - intros Hlt.
    assert ((Z.of_nat (String.length username) <? 3) = true) as ->
      by (apply Z.ltb_lt; lia).
    reflexivity.
  - intros Hge.
    assert ((Z.of_nat (String.length username) <? 3) = false) as ->
      by (apply Z.ltb_ge; lia).
    reflexivity.
  - reflexivity.
Qed.

Lemma action_validates_username_witness :
  action VUndefined (App_form "ab") =
    Await 1000 (Ret (VObj [("success", VBool false);
                           ("message", VStr "Username must be at least 3 characters long")]))
  /\ action VNull (App_form "reza") =
    Await 1000 (Ret (VObj [("success", VBool true);
                           ("message", VStr "User 1 updated to reza")])).
Proof.
  split.
  - destruct (action_validates_username VUndefined (App_form "ab") "ab" "1"
                eq_refl eq_refl) as [Hshort _].
    apply Hshort. simpl. lia.
  - destruct (action_validates_username VNull (App_form "reza") "reza" "1"
                eq_refl eq_refl) as (_ & Hlong & _).
    apply Hlong. simpl. lia.
Defined.

(** ** [useThemeContext] *)

Lemma useThemeContext_outcome (env : gmap nat value) :
  outcome (useThemeContext env) =
  match default VNull (env !! 1%nat) with
  | VUndefined => inr provider_error
  | v => inl v
  end.
Proof.
  unfold useThemeContext, useContext. simpl.
  destruct (default VNull (env !! 1%nat)); reflexivity.
Qed.

(** C1, on the code: with no provider of [ThemeContext] above it, the
    hook reads the default [null] of the context, the check against
    [undefined] does not fire, and the hook returns [null]. *)
Theorem useThemeContext_outside_provider :
  (∅ : gmap nat value) !! ctx_key ThemeContext = None /\
  outcome (useThemeContext ∅) = inl VNull.
Proof. split; reflexivity. Qed.

(** C9: the hook throws exactly when the value it reads is [undefined],
    which takes a provider whose value is [undefined]; outside a
    provider it returns the default [null]; any other value it returns
    as it is. *)
Theorem useThemeContext_throws_only_on_undefined (env : gmap nat value) :
  match env !! ctx_key ThemeContext with
  | None => outcome (useThemeContext env) = inl VNull
  | Some VUndefined => outcome (useThemeContext env) = inr provider_error
  | Some v => outcome (useThemeContext env) = inl v
  end
  /\ ((exists e, outcome (useThemeContext env) = inr e) <->
      env !! ctx_key ThemeContext = Some VUndefined)
  /\ (forall v, outcome (useContext ThemeContext env) = inl v ->
      v <> VUndefined -> outcome (useThemeContext env) = inl v).
Proof.
  rewrite useThemeContext_outcome. simpl.
  destruct (env !! 1%nat) as [v|] eqn:E; simpl.
  - destruct v; (split; [reflexivity|]); (split; [split|]);
      try (intros [e He]; discriminate He);
      try (intros He; discriminate He);
      try (intros _; eexists; reflexivity);
      try (intros w Hw Hne; injection Hw as <-; try reflexivity; congruence);
      try reflexivity.
  - split; [reflexivity|]. split; [split|].
    + intros [e He]. discriminate He.
    + intros He. discriminate He.
    + intros w Hw _. injection Hw as <-. reflexivity.
Qed.

(** ** State cells *)

Section CellFacts.
Context {S : Type}.
Implicit Types (c : cell S) (u : update S) (s : S).

Lemma dispatch_current u c : current (dispatch u c) = current c.
Proof. reflexivity. Qed.

Lemma flush_dispatch u c :
  current (flush (dispatch u c)) = reduce (current (flush c)) u.
Proof. unfold flush, dispatch. simpl. apply fold_left_app. Qed.

Lemma flush_flush c : flush (flush c) = flush c.
Proof. reflexivity. Qed.

Lemma flush_SetTo s c : current (flush (dispatch (SetTo s) c)) = s.
Proof. rewrite flush_dispatch. reflexivity. Qed.

Lemma useState_outcome (init : S) (slot : option (cell S)) :
  outcome (useState init slot) =
  inl (current (flush (default (new_cell init) slot)),
       flush (default (new_cell init) slot)).
Proof. reflexivity. Qed.

(** What [useState] reads back after a [set] call is the value that
    was set, whatever the cell held. *)
Lemma useState_reads_back (init s : S) c :
  outcome (useState init (Some (dispatch (SetTo s) c))) = inl (s, Cell s []).
Proof.
  rewrite useState_outcome. unfold flush, dispatch. simpl.
  rewrite fold_left_app. reflexivity.
Qed.
End CellFacts.

Lemma setState_current (k j : nat) (u : update value) (s : gmap nat (cell value)) :
  current <$> (setState k u s !! j) = current <$> (s !! j).
Proof.
  unfold setState. destruct (decide (k = j)) as [->|Hne].
  - rewrite lookup_alter_eq. destruct (s !! j); reflexivity.
  - rewrite lookup_alter_ne by exact Hne. reflexivity.
Qed.

(** ** The provider and the consumer *)

Lemma useContext_provide (c : context) (v : value) (env : gmap nat value) :
  useContext c (provide c v env) = Hook UseContext (Ret v).
Proof. unfold useContext, provide. rewrite lookup_insert_eq. reflexivity. Qed.

Lemma DataProvider_run (self : nat) (children : list node) (slot : option (cell value)) :
  DataProvider self children slot =
  Hook UseState
    (Ret (Provide dataContext (VArr [current (provider_cell slot); VSetState self])
            children,
          provider_cell slot)).
Proof. reflexivity. Qed.

Lemma DataConsumer_run (data setData : value) (env : gmap nat value) :
  DataConsumer (provide dataContext (VArr [data; setData]) env) =
  Hook UseContext (Ret (Consumer (consumer_screen data) (call setData changed_data))).
Proof. unfold DataConsumer. rewrite useContext_provide. reflexivity. Qed.


Section RenderEquations.
Implicit Types (d : nat) (env : gmap nat value) (w : fibers) (kids : list node).

Lemma render_provider d env kids w :
  render (S d) env (Use CDataProvider kids) w =
  '(out, c) ← DataProvider (next w) kids (store w !! next w);
  render d env out
    (Fibers (app_hooks w) (<[next w := c]> (store w)) (S (next w)) (clicks w)).
Proof. reflexivity. Qed.

Lemma render_consumer d env kids w :
  render (S d) env (Use CDataConsumer kids) w =
  out ← DataConsumer env;
  render d env (consumer_view out)
    (Fibers (app_hooks w) (store w) (next w) (clicks w ++ [consumer_onClick out])).
Proof. reflexivity. Qed.

Lemma render_Provide d env c v kids w :
  render (S d) env (Provide c v kids) w =
  '(kids', w') ← render_all d (provide c v env) kids w;
  Ret (Provide c v kids', w').
Proof. reflexivity. Qed.

Lemma render_all_cons d env n kids w :
  render_all (S d) env (n :: kids) w =
  '(n', w1) ← render d env n w;
  '(rest', w2) ← render_all d env kids w1;
  Ret (n' :: rest', w2).
Proof. reflexivity. Qed.

Lemma render_all_nil d env w : render_all d env [] w = Ret ([], w).
Proof. destruct d; reflexivity. Qed.
End RenderEquations.

(** A tree without component elements renders to itself at any depth. *)
Lemma render_static d :
  (forall env n w, static n = true -> render d env n w = Ret (n, w)) /\
  (forall env ns w, forallb static ns = true -> render_all d env ns w = Ret (ns, w)).
Proof.
  induction d as [|d [IHn IHs]]; [split; reflexivity|].
  split.
  - intros env [s|v|tag attrs kids|kids|c v kids|c kids] w Hn;
      try reflexivity; try discriminate Hn;
      simpl in Hn; cbn [render]; rewrite IHs by exact Hn; reflexivity.
  - intros env [|n ns] w Hs; [reflexivity|].
    simpl in Hs. apply andb_prop in Hs as [Hn Hs].
    rewrite render_all_cons, IHn by exact Hn.
    cbn [mbind comp_mbind comp_bind]. rewrite IHs by exact Hs. reflexivity.
Qed.

Lemma render_demo (w : fibers) :
  render_root 8 demo w =
  Hook UseState (Hook UseContext
    (Ret (demo_screen 0 (current (provider_cell (store w !! 0%nat))),
          Fibers (app_hooks w) (<[0%nat := provider_cell (store w !! 0%nat)]> (store w)) 1
            [call (VSetState 0) changed_data]))).
Proof.
  unfold render_root, demo.
  rewrite render_provider, DataProvider_run.
  cbn [mbind comp_mbind comp_bind store next app_hooks clicks].
  rewrite render_Provide, render_all_cons, render_consumer, DataConsumer_run.
  cbn [mbind comp_mbind comp_bind store next app_hooks clicks consumer_view consumer_onClick].
  rewrite (proj1 (render_static 4)) by reflexivity.
  cbn [mbind comp_mbind comp_bind].
  rewrite render_all_nil.
  reflexivity.
Qed.

Lemma demo_render_ready (w : fibers) :
  exists w', outcome (demo_step DemoRender w) = inl w' /\ demo_ready w' /\
             demo_data w' = demo_data w.
Proof.
  cbn [demo_step]. rewrite outcome_fmap, render_demo. cbn [outcome snd].
  eexists. split; [reflexivity|]. unfold demo_ready, demo_data. cbn [store clicks].
  rewrite lookup_insert_eq. split; [split; [eauto|reflexivity]|reflexivity].
Qed.

Lemma demo_click_data (w : fibers) :
  demo_ready w ->
  exists w', outcome (demo_step DemoClick w) = inl w' /\ demo_ready w' /\
             demo_data w' = changed_data.
Proof.
  intros [[c Hc] Hclicks]. cbn [demo_step]. unfold click. rewrite Hclicks.
  cbn [call mbind comp_mbind comp_bind outcome].
  eexists. split; [reflexivity|]. unfold demo_ready, demo_data. cbn [store clicks].
  unfold setState. rewrite lookup_alter_eq, Hc. cbn [fmap option_fmap option_map].
  split; [split; [eauto|reflexivity]|].
  unfold provider_cell. cbn [default]. apply flush_SetTo.
Qed.

Lemma demo_play_ready (es : list demo_event) (w : fibers) :
  demo_ready w ->
  exists w', outcome (demo_play es w) = inl w' /\ demo_ready w' /\
             (demo_data w = changed_data -> demo_data w' = changed_data).
Proof.
  revert w. induction es as [|e es IH]; intros w Hw.
  - exists w. split; [reflexivity|]. split; [exact Hw|auto].
  - assert (exists w1, outcome (demo_step e w) = inl w1 /\ demo_ready w1 /\
                       (demo_data w = changed_data -> demo_data w1 = changed_data))
      as (w1 & Hstep & Hw1 & Hd1).
    { destruct e.
      - destruct (demo_render_ready w) as (w1 & H1 & H2 & H3).
        exists w1. split; [exact H1|]. split; [exact H2|]. intros H. congruence.
      - destruct (demo_click_data w Hw) as (w1 & H1 & H2 & H3).
        exists w1. split; [exact H1|]. split; [exact H2|]. intros _. exact H3. }
    destruct (IH w1 Hw1) as (w2 & Hplay & Hw2 & Hd2).
    exists w2. cbn [demo_play]. rewrite outcome_bind, Hstep.
    split; [exact Hplay|]. split; [exact Hw2|]. auto.
Qed.

(** C4: the element [DataProvider] returns is the provider of
    [dataContext] around its children, with the pair of the state it
    read and the [set] function of its cell as the value; [useContext]
    gives a consumer below it that same pair; and in the demo the
    consumer shows the data of the provider and calls its [set]
    function. *)
Theorem provider_passes_pair_through :
  (forall self children slot,
     outcome (DataProvider self children slot) =
     inl (Provide dataContext
            (VArr [current (provider_cell slot); VSetState self]) children,
          provider_cell slot))
  /\ (forall pair env,
        outcome (useContext dataContext (provide dataContext pair env)) = inl pair)
  /\ (forall data setData env,
        outcome (DataConsumer (provide dataContext (VArr [data; setData]) env)) =
        inl (Consumer (consumer_screen data) (call setData changed_data)))
  /\ (forall w,
        outcome (render_root 8 demo w) =
        inl (demo_screen 0 (current (provider_cell (store w !! 0%nat))),
             Fibers (app_hooks w)
               (<[0%nat := provider_cell (store w !! 0%nat)]> (store w)) 1
               [call (VSetState 0) changed_data])).
Proof.
  split; [|split; [|split]].
  - intros self children slot. rewrite DataProvider_run. reflexivity.
  - intros pair env. rewrite useContext_provide. reflexivity.
  - intros data setData env. rewrite DataConsumer_run. reflexivity.
  - intros w. rewrite render_demo. reflexivity.
Qed.

(** C10: once the demo has rendered, a click on the button of the
    consumer sets the data to the constant string of the handler, and
    no later click or render changes it: after any run of renders and
    clicks with at least one click in it, the demo shows that string,
    whatever the cells held before. *)
Theorem consumer_click_idempotent (w : fibers) (before after : list demo_event) :
  exists w' w'',
    outcome (demo_play (DemoRender :: before ++ DemoClick :: after) w) = inl w' /\
    demo_data w' = VStr "Data has changed!" /\
    outcome (render_root 8 demo w') =
      inl (demo_screen 0 (VStr "Data has changed!"), w'').
Proof.
  destruct (demo_render_ready w) as (w1 & Hrender & Hw1 & _).
  destruct (demo_play_ready before w1 Hw1) as (w2 & Hbefore & Hw2 & _).
  destruct (demo_click_data w2 Hw2) as (w3 & Hclick & Hw3 & Hd3).
  destruct (demo_play_ready after w3 Hw3) as (w4 & Hafter & Hw4 & Hd4).
  assert (forall es1 es2 u v,
            outcome (demo_play es1 u) = inl v ->
            outcome (demo_play (es1 ++ es2) u) = outcome (demo_play es2 v)) as Happ.
  { induction es1 as [|e es1 IH]; intros es2 u v Hu.
    - injection Hu as <-. reflexivity.
    - cbn [demo_play app] in *. rewrite outcome_bind in *.
      destruct (outcome (demo_step e u)) as [u1|err]; [|discriminate Hu].
      apply IH, Hu. }
  exists w4. eexists. split; [|split].
  - cbn [demo_play]. rewrite outcome_bind, Hrender.
    rewrite (Happ before _ w1 w2 Hbefore).
    cbn [demo_play]. rewrite outcome_bind, Hclick. exact Hafter.
  - apply Hd4, Hd3.
  - rewrite render_demo. cbn [outcome]. fold (demo_data w4).
    rewrite (Hd4 Hd3). reflexivity.
Qed.

(** ** The counter of [App] *)

Lemma App_run (h : AppHooks) :
  App h =
  Hook UseState (Hook UseActionState
    (Ret (App_view (App_count h) (state (App_form_cell h)) (isPending (App_form_cell h)),
          MkAppHooks (Some (flush (default (new_cell 0) (count_slot h))))
                     (Some (App_form_cell h))))).
Proof. reflexivity. Qed.

Lemma to_double_exact (z : Z) :
  - 2 ^ 53 <= z <= 2 ^ 53 -> to_double z = z.
Proof.
  intros Hz. unfold to_double.
  destruct (Z.abs z <? 2 ^ 53) eqn:Hsmall; [reflexivity|].
  apply Z.ltb_ge in Hsmall.
  assert (z = 2 ^ 53 \/ z = - 2 ^ 53) as [-> | ->] by lia; reflexivity.
Qed.

Lemma increment_exact (n : Z) :
  - 2 ^ 53 <= n < 2 ^ 53 -> increment n = n + 1.
Proof. intros Hn. unfold increment. apply to_double_exact. lia. Qed.

Lemma App_count_click (h : AppHooks) :
  is_Some (count_slot h) -> App_count (App_onClick h) = increment (App_count h).
Proof.
  destruct h as [slot f]. intros [c Hc]. simpl in Hc. subst slot.
  apply (flush_dispatch (SetWith increment) c).
Qed.

Lemma action_App_form (preState : value) (username : string) :
  exists v, outcome (action preState (App_form username)) = inl v.
Proof.
  unfold action. simpl.
  destruct (Z.of_nat (String.length username) <? 3); eexists; reflexivity.
Qed.

Lemma App_step_count (e : App_event) (h : AppHooks) :
  App_mounted h ->
  (is_click e = true -> - 2 ^ 53 <= App_count h < 2 ^ 53) ->
  exists h', outcome (App_step e h) = inl h' /\ App_mounted h' /\
             App_count h' = App_count h + (if is_click e then 1 else 0).
Proof.
  destruct h as [slot fslot]. intros ([c Hc] & f & Hf & Hq) Hrange.
  simpl in Hc, Hf. subst slot fslot.
  destruct e as [| |username|]; cbn [App_step is_click] in *.
  - eexists. split; [reflexivity|]. split.
    + split; [simpl; eauto|]. exists f. split; [reflexivity|exact Hq].
    + rewrite (App_count_click (MkAppHooks (Some c) (Some f))) by (simpl; eauto).
      apply increment_exact, Hrange. reflexivity.
  - eexists. split; [reflexivity|]. split.
    + split; [simpl; eauto|]. exists f. split; [reflexivity|exact Hq].
    + unfold App_count. simpl. lia.
  - eexists. split; [reflexivity|]. split.
    + split; [simpl; eauto|]. eexists. split; [reflexivity|].
      simpl. apply Forall_app. split; [exact Hq|].
      constructor; [eauto|constructor].
    + unfold App_count. simpl. lia.
  - unfold App_settle, settle. cbn [form_slot count_slot].
    destruct f as [st [|formData rest]]; cbn [submitted state] in *.
    + eexists. split; [reflexivity|]. split.
      * split; [simpl; eauto|]. eexists. split; [reflexivity|constructor].
      * unfold App_count. simpl. lia.
    + apply Forall_cons in Hq as [[username ->] Hrest].
      destruct (action_App_form st username) as [v Hv].
      rewrite !outcome_bind, Hv. simpl. eexists. split; [reflexivity|]. split.
      * split; [simpl; eauto|]. eexists. split; [reflexivity|exact Hrest].
      * unfold App_count. simpl. lia.
Qed.

Lemma App_play_count (es : list App_event) (h : AppHooks) :
  App_mounted h ->
  - 2 ^ 53 <= App_count h ->
  App_count h + Z.of_nat (length (List.filter is_click es)) <= 2 ^ 53 ->
  exists h', outcome (App_play es h) = inl h' /\ App_mounted h' /\
             App_count h' = App_count h + Z.of_nat (length (List.filter is_click es)).
Proof.
  revert h. induction es as [|e es IH]; intros h Hm Hlow Hhigh.
  - exists h. split; [reflexivity|]. split; [exact Hm|]. simpl. lia.
  - simpl List.filter in Hhigh |- *.
    destruct (App_step_count e h Hm) as (h1 & Hstep & Hm1 & Hc1).
    { intros He. rewrite He in Hhigh. simpl length in Hhigh. lia. }
    destruct (IH h1 Hm1) as (h2 & Hplay & Hm2 & Hc2).
    { rewrite Hc1. destruct (is_click e); lia. }
    { rewrite Hc1. destruct (is_click e); simpl length in Hhigh; lia. }
    exists h2. cbn [App_play]. rewrite outcome_bind, Hstep.
    split; [exact Hplay|]. split; [exact Hm2|].
    rewrite Hc2, Hc1. destruct (is_click e); simpl length; lia.
Qed.

(** C5, as stated, fails at the count 2^53: a double cannot hold
    2^53 + 1, the sum is rounded back to 2^53, and a click leaves the
    number on the button as it was. *)
Lemma counter_stalls_at_2_53 :
  (exists h1,
     outcome (App (MkAppHooks (Some (new_cell 9007199254740992))
                    (Some (ActionCell VUndefined [])))) =
     inl (App_view 9007199254740992 VUndefined false, h1)) /\
  (exists h1,
     outcome (App (App_onClick
                (MkAppHooks (Some (new_cell 9007199254740992))
                   (Some (ActionCell VUndefined []))))) =
     inl (App_view 9007199254740992 VUndefined false, h1)) /\
  App_counter (App_view 9007199254740992 VUndefined false) =
    Some [Txt "count is "; Val (VNum 9007199254740992)] /\
  ~ (forall n : Z, increment n = n + 1).
Proof.
  split; [eexists; reflexivity|]. split; [eexists; reflexivity|].
  split; [reflexivity|].
  intros H. specialize (H 9007199254740992). discriminate H.
Qed.

(** C5, amended: when a mounted [App] shows the count [n] and [n] is
    below 2^53 in size, a click on the button makes the next render show
    [n + 1] on the button; and whatever else happens to [App], the
    button shows [n] plus the number of clicks, as long as that sum does
    not pass 2^53. *)
Theorem counter_click_increments (h : AppHooks) (n : Z) :
  App_mounted h ->
  App_count h = n ->
  - 2 ^ 53 <= n < 2 ^ 53 ->
  (exists view h1,
     outcome (App h) = inl (view, h1) /\
     App_counter view = Some [Txt "count is "; Val (VNum n)])
  /\ (exists view h1,
        outcome (App (App_onClick h)) = inl (view, h1) /\
        App_counter view = Some [Txt "count is "; Val (VNum (n + 1))])
  /\ (forall es,
        n + Z.of_nat (length (List.filter is_click es)) <= 2 ^ 53 ->
        exists h' view h1,
          outcome (App_play es h) = inl h' /\
          outcome (App h') = inl (view, h1) /\
          App_counter view =
            Some [Txt "count is ";
                  Val (VNum (n + Z.of_nat (length (List.filter is_click es))))]).
Proof.
  intros Hm Hn Hrange. split; [|split].
  - rewrite App_run, Hn. eexists _, _. split; reflexivity.
  - rewrite App_run, App_count_click, Hn, increment_exact by (apply Hm || exact Hrange).
    eexists _, _. split; reflexivity.
  - intros es Hes. subst n.
    destruct (App_play_count es h Hm) as (h' & Hplay & _ & Hc); [lia|exact Hes|].
    exists h'. rewrite App_run, Hc. eexists _, _.
    split; [exact Hplay|]. split; reflexivity.
Qed.

Lemma counter_click_increments_witness :
  exists view h1,
    outcome (App (App_onClick (MkAppHooks (Some (new_cell 0))
                                 (Some (ActionCell VUndefined [])))))
    = inl (view, h1) /\
    App_counter view = Some [Txt "count is "; Val (VNum 1)].
Proof.
  assert (App_mounted (MkAppHooks (Some (new_cell 0))
                         (Some (ActionCell VUndefined [])))) as Hm.
  { split; [eexists; reflexivity|].
    eexists. split; [reflexivity|]. constructor. }
  assert (- 2 ^ 53 <= 0 < 2 ^ 53) as Hrange by lia.
  destruct (counter_click_increments _ 0 Hm eq_refl Hrange) as (_ & Hclick & _).
  exact Hclick.
Defined.

(** ** Timers *)

Lemma DataConsumer_effects (env : gmap nat value) :
  timers (DataConsumer env) = [] /\ hooks (DataConsumer env) = [UseContext] /\
  match outcome (DataConsumer env) with
  | inl _ => True
  | inr (TypeError _) => True
  | inr (UserError _) => False
  end.
Proof.
  unfold DataConsumer, useContext. simpl.
  destruct (default VUndefined (env !! 0%nat)); simpl; auto.
Qed.

Lemma useThemeContext_effects (env : gmap nat value) :
  timers (useThemeContext env) = [] /\ hooks (useThemeContext env) = [UseContext].
Proof.
  unfold useThemeContext, useContext. simpl.
  destruct (default VNull (env !! 1%nat)); simpl; auto.
Qed.

Lemma call_effects (fn arg : value) (s : gmap nat (cell value)) :
  timers (call fn arg s) = [] /\
  ((exists k, fn = VSetState k /\ call fn arg s = Ret (setState k (SetTo arg) s)) \/
   (exists msg, forall s', call fn arg s' = Throw (TypeError msg))).
Proof. destruct fn; simpl; eauto 6. Qed.

(** C7, as stated, fails: [action] waits for a timer of its own. *)
Lemma action_awaits_timer :
  timers (run fn_action (submission "ab")) = [1000] /\
  ~ (forall f i, timers (run f i) = []).
Proof.
  split; [reflexivity|].
  intros H. specialize (H fn_action (submission "ab")). discriminate H.
Qed.

(** C7, amended: [action] is the one function that waits, for one timer
    of 1000 ms on every call; no other function of the repository waits
    for anything. *)
Theorem only_action_awaits (f : repo_fn) (i : input) :
  timers (run f i) = match f with fn_action => [1000] | _ => [] end.
Proof.
  destruct f; cbn [run]; rewrite ?timers_fmap; try reflexivity.
  - apply action_timers.
  - apply DataConsumer_effects.
  - apply call_effects.
  - apply useThemeContext_effects.
Qed.

(** ** Failures *)

Lemma action_outcome (preState : value) (formData : FormData) :
  outcome (action preState formData) =
  match formData_get formData "username" with
  | None => inr (TypeError "Cannot read properties of null (reading 'length')")
  | Some (Text username) =>
      if (Z.of_nat (String.length username) <? 3) then
        inl (VObj [("success", VBool false); ("message", VStr failure_message)])
      else
        inl (VObj [("success", VBool true);
                   ("message",
                    VStr ("User " +:+ template (formData_get formData "id")
                          +:+ " updated to " +:+ username))])
  | Some (File name) =>
      inl (VObj [("success", VBool true);
                 ("message",
                  VStr ("User " +:+ template (formData_get formData "id")
                        +:+ " updated to [object File]"))])
  end.
Proof.
  unfold action. simpl.
  destruct (formData_get formData "username") as [[username|name]|]; simpl;
    try reflexivity.
  destruct (Z.of_nat (String.length username) <? 3); reflexivity.
Qed.

(** C2, as stated, fails: [action] inspects the username and returns a
    failure object of its own. *)
Lemma action_reports_failure :
  reports_failure (run fn_action (submission "ab")) = true /\
  ~ (forall f i, reports_failure (run f i) = false).
Proof.
  split; [reflexivity|].
  intros H. specialize (H fn_action (submission "ab")). discriminate H.
Qed.

(** C2, amended: a function of the repository reports a failure of its
    own in two cases only: [action] returns its failure object when the
    username is a text of fewer than 3 characters, and [useThemeContext]
    throws its error when the value of the context is [undefined]. *)
Theorem failures_of_the_repository (f : repo_fn) (i : input) :
  reports_failure (run f i) = true <->
  (f = fn_action /\
   exists username,
     formData_get (in_formData i) "username" = Some (Text username) /\
     (String.length username < 3)%nat)
  \/ (f = fn_useThemeContext /\
      in_env i !! ctx_key ThemeContext = Some VUndefined).
Proof.
  unfold reports_failure.
  destruct f; cbn [run]; rewrite ?outcome_fmap.
  - rewrite action_outcome.
    destruct (formData_get (in_formData i) "username") as [[username|name]|].
    + destruct (Z.of_nat (String.length username) <? 3) eqn:Hlen; simpl.
      * apply Z.ltb_lt in Hlen. split; [|reflexivity].
        intros _. left. split; [reflexivity|]. exists username.
        split; [reflexivity|lia].
      * apply Z.ltb_ge in Hlen. split; [discriminate|].
        intros [[_ (u & Hu & Hlt)]|[Hf _]]; [|discriminate Hf].
        injection Hu as <-. lia.
    + simpl. split; [discriminate|].
      intros [[_ (u & Hu & _)]|[Hf _]]; discriminate.
    + simpl. split; [discriminate|].
      intros [[_ (u & Hu & _)]|[Hf _]]; discriminate.
  - rewrite App_run. simpl. split; [discriminate|].
    intros [[Hf _]|[Hf _]]; discriminate Hf.
  - simpl. split; [discriminate|].
    intros [[Hf _]|[Hf _]]; discriminate Hf.
  - simpl. split; [discriminate|].
    intros [[Hf _]|[Hf _]]; discriminate Hf.
  - rewrite DataProvider_run. simpl. split; [discriminate|].
    intros [[Hf _]|[Hf _]]; discriminate Hf.
  - destruct (DataConsumer_effects (in_env i)) as (_ & _ & Hout).
    destruct (outcome (DataConsumer (in_env i))) as [out|[msg|msg]];
      [| |destruct Hout]; (split; [discriminate|]);
      intros [[Hf _]|[Hf _]]; discriminate Hf.
  - destruct (in_setData i); simpl; (split; [discriminate|]);
      intros [[Hf _]|[Hf _]]; discriminate Hf.
  - simpl. split; [discriminate|].
    intros [[Hf _]|[Hf _]]; discriminate Hf.
  - rewrite useThemeContext_outcome. simpl.
    destruct (in_env i !! 1%nat) as [v|]; simpl.
    + destruct v; simpl;
        try (split; [discriminate|];
             intros [[Hf _]|[_ Hv]]; [discriminate Hf|discriminate Hv]).
      split; [|reflexivity]. intros _. right. split; reflexivity.
    + split; [discriminate|].
      intros [[Hf _]|[_ Hv]]; [discriminate Hf|discriminate Hv].
  - simpl. split; [discriminate|].
    intros [[Hf _]|[Hf _]]; discriminate Hf.
  - simpl. split; [discriminate|].
    intros [[Hf _]|[Hf _]]; discriminate Hf.
Qed.

(** ** Components and their callbacks *)

Lemma call_acts_by_setter (fn arg : value) : acts_by_setter (OnStore (call fn arg)).
Proof.
  split.
  - destruct fn as [| | | | | | |k]; simpl;
      try (right; eexists; intros store; reflexivity).
    left. exists k, (SetTo arg). intros store. reflexivity.
  - intros s s' j Hs.
    destruct fn as [| | | | | | |k]; simpl in Hs; try discriminate Hs.
    injection Hs as <-. apply setState_current.
Qed.

Lemma App_onClick_acts_by_setter : acts_by_setter (OnApp App_onClick).
Proof.
  split.
  - exists (SetWith increment). intros a. reflexivity.
  - intros [[c|] f]; split; reflexivity.
Qed.

Lemma App_callbacks_act_by_setter : Forall acts_by_setter App_callbacks.
Proof.
  constructor; [apply App_onClick_acts_by_setter|].
  constructor; [|constructor].
  intros p q formData. reflexivity.
Qed.

Lemma DataConsumer_outcome (env : gmap nat value) :
  outcome (DataConsumer env) =
  match outcome (destructure2 (default VUndefined (env !! ctx_key dataContext))) with
  | inl (data, setData) =>
      inl (Consumer (consumer_screen data) (call setData changed_data))
  | inr e => inr e
  end.
Proof.
  unfold DataConsumer, useContext.
  cbn [mbind comp_mbind comp_bind outcome]. fold (@comp_bind (value * value) consumer).
  change (comp_bind ?f ?c) with (c ≫= f). rewrite outcome_bind.
  destruct (outcome (destructure2 _)) as [[data setData]|e]; reflexivity.
Qed.

Lemma cell_kept_flush {S : Type} (init : S) (slot : option (cell S)) :
  cell_kept slot (flush (default (new_cell init) slot)).
Proof. split; [reflexivity|]. destruct slot; reflexivity. Qed.

Lemma component_keeps_state (c : component) (i : input) :
  match component_run c with
  | Some body =>
      match outcome (body i) with
      | inl (_, cbs, cells) => render_keeps i cells /\ Forall acts_by_setter cbs
      | inr _ => True
      end
  | None => True
  end.
Proof.
  destruct c; cbn [component_run]; try exact I; rewrite ?outcome_fmap.
  - rewrite App_run. cbn [outcome fst snd render_keeps count_slot form_slot].
    split; [|exact App_callbacks_act_by_setter]. split.
    + eexists. split; [reflexivity|]. apply cell_kept_flush.
    + eexists. split; [reflexivity|]. unfold App_form_cell.
      destruct (form_slot (in_app i)); reflexivity.
  - rewrite DataProvider_run. cbn [outcome fst snd render_keeps].
    split; [apply cell_kept_flush|constructor].
  - rewrite DataConsumer_outcome.
    destruct (outcome (destructure2 _)) as [[data setData]|e]; [|exact I].
    cbn [consumer_view consumer_onClick render_keeps]. split; [exact I|].
    constructor; [apply call_acts_by_setter|constructor].
  - simpl. split; [exact I|constructor].
  - simpl. split; [exact I|constructor].
  - simpl. split; [exact I|constructor].
Qed.

(** C3, as stated, fails: a render of [App] calls two hooks, and [App]
    hands the framework [action], which waits for a timer and answers a
    short username with a failure. *)
Lemma App_is_not_thin :
  hooks (App (in_app (submission "ab"))) = [UseState; UseActionState] /\
  action VUndefined (App_form "ab") =
    Await 1000 (Ret (VObj [("success", VBool false);
                           ("message", VStr failure_message)])) /\
  ~ thin CApp /\
  ~ (forall c, thin c).
Proof.
  assert (~ thin CApp) as Hnot.
  { unfold thin. cbn [component_run]. intros (_ & H & _).
    specialize (H (submission "ab")). destruct H as (_ & Hhooks & _).
    rewrite hooks_fmap in Hhooks. simpl in Hhooks. lia. }
  split; [reflexivity|]. split; [reflexivity|]. split; [exact Hnot|].
  intros H. exact (Hnot (H CApp)).
Qed.

Lemma thin_of (c : component) (body : input -> comp (node * list callback * rendered_cells))
    (good : input) :
  component_run c = Some body ->
  (exists out, outcome (body good) = inl out) ->
  (forall i, timers (body i) = [] /\ (length (hooks (body i)) <= 1)%nat) ->
  (forall i, match outcome (body i) with
             | inl (_, cbs, _) => cbs = [] \/ exists fn, cbs = [OnStore (call fn changed_data)]
             | inr (TypeError _) => True
             | inr (UserError _) => False
             end) ->
  (forall i j,
     in_children i = in_children j ->
     match outcome (body i), outcome (body j) with
     | inl (view, cbs, _), inl (view', cbs', _) =>
         shape view = shape view' /\ length cbs = length cbs'
     | _, _ => True
     end) ->
  thin c.
Proof.
  intros Hrun Hgood Heff Hcbs Hshape.
  pose proof (component_keeps_state c) as Hkeep.
  unfold thin. rewrite Hrun in *.
  split; [exists good; exact Hgood|]. split; [|exact Hshape].
  intros i. destruct (Heff i) as [Ht Hh]. split; [exact Ht|]. split; [exact Hh|].
  specialize (Hcbs i). specialize (Hkeep i).
  destruct (outcome (body i)) as [[[view cbs] cells]|[msg|msg]];
    [|exact I|exact Hcbs].
  destruct Hkeep as [Hcells Hacts]. split; [exact Hcells|].
  destruct Hcbs as [-> | [fn ->]]; [constructor|].
  constructor; [|constructor]. split; [apply call_acts_by_setter|exact I].
Qed.

(** C3, amended: every component whose source is there, other than
    [App], is a thin wrapper, and its render is the framework call and
    nothing else: [DataProvider] provides the pair of the state and the
    [set] function of its cell around its children, the consumer
    destructures what the context gives, shows the first item and calls
    the second with a constant, [Form] names an input after what the
    context gives.  A render of [App] calls [useState] and
    [useActionState]; its click handler is one setter call; the function
    it gives to [useActionState] is [action], which waits for a timer of
    1000 ms on every call and answers the form of [App] by the length of
    the username. *)
Theorem components_other_than_App_are_thin :
  (forall c, c = CApp \/ component_run c = None \/ thin c)
  /\ (forall self children slot,
        outcome (DataProvider self children slot) =
        inl (Provide dataContext
               (VArr [current (provider_cell slot); VSetState self]) children,
             provider_cell slot))
  /\ (forall env,
        outcome (DataConsumer env) =
        match outcome (destructure2
                         (default VUndefined (env !! ctx_key dataContext))) with
        | inl (data, setData) =>
            inl (Consumer (consumer_screen data)
                   (call setData (VStr "Data has changed!")))
        | inr e => inr e
        end)
  /\ (forall env,
        outcome (Form env) =
        inl (Form_view (default VNull (env !! ctx_key ThemeContext))))
  /\ (forall h, hooks (App h) = [UseState; UseActionState])
  /\ plain (OnApp App_onClick)
  /\ (forall preState formData, timers (action preState formData) = [1000])
  /\ (forall preState username,
        outcome (action preState (App_form username)) = inl (verdict username))
  /\ (forall username,
        opt_prop (verdict username) "success" =
        VBool (negb (Z.of_nat (String.length username) <? 3))).
Proof.
  split; [|split; [|split; [|split; [|split; [|split; [|split; [|split]]]]]]].
  - intros c.
    destruct c; [left; reflexivity|..];
      try (right; left; reflexivity); right; right.
    + eapply (thin_of CDataProvider _ (submission "ab")); [reflexivity|..]; cbv beta.
      * rewrite outcome_fmap, DataProvider_run. eexists. reflexivity.
      * intros i. rewrite timers_fmap, hooks_fmap, DataProvider_run.
        split; [reflexivity|simpl; lia].
      * intros i. rewrite outcome_fmap, DataProvider_run. left. reflexivity.
      * intros i j Hkids. rewrite !outcome_fmap, !DataProvider_run.
        cbn [outcome fst shape]. rewrite Hkids. split; reflexivity.
    + eapply (thin_of CDataConsumer _
                (Input (provide dataContext (VArr []) ∅) ∅ (MkAppHooks None None)
                   None 0 [] VUndefined [] 0 VUndefined)); [reflexivity|..]; cbv beta.
      * eexists. reflexivity.
      * intros i. rewrite timers_fmap, hooks_fmap.
        destruct (DataConsumer_effects (in_env i)) as (-> & -> & _).
        split; [reflexivity|simpl; lia].
      * intros i. rewrite outcome_fmap.
        pose proof (DataConsumer_effects (in_env i)) as (_ & _ & Herr).
        rewrite DataConsumer_outcome in *.
        destruct (outcome (destructure2 _)) as [[data setData]|[msg|msg]];
          [right; eexists; reflexivity|exact I|exact Herr].
      * intros i j _. rewrite !outcome_fmap, !DataConsumer_outcome.
        destruct (outcome (destructure2 _)) as [[data setData]|e]; [|exact I].
        destruct (outcome (destructure2 _)) as [[data' setData']|e']; [|exact I].
        split; reflexivity.
    + eapply (thin_of CForm _ (submission "ab")); [reflexivity|..]; cbv beta.
      * eexists. reflexivity.
      * intros i. split; [reflexivity|simpl; lia].
      * intros i. left. reflexivity.
      * intros i j _. split; reflexivity.
    + eapply (thin_of CContextOne _ (submission "ab")); [reflexivity|..]; cbv beta.
      * eexists. reflexivity.
      * intros i. split; [reflexivity|simpl; lia].
      * intros i. left. reflexivity.
      * intros i j _. split; reflexivity.
    + eapply (thin_of CColorPage _ (submission "ab")); [reflexivity|..]; cbv beta.
      * eexists. reflexivity.
      * intros i. split; [reflexivity|simpl; lia].
      * intros i. left. reflexivity.
      * intros i j _. split; reflexivity.
  - intros self children slot. rewrite DataProvider_run. reflexivity.
  - exact DataConsumer_outcome.
  - intros env. reflexivity.
  - intros h. reflexivity.
  - split; [apply App_onClick_acts_by_setter|exact I].
  - exact action_timers.
  - intros preState username. rewrite action_outcome. unfold verdict. simpl.
    destruct (Z.of_nat (String.length username) <? 3); reflexivity.
  - intros username. unfold verdict.
    destruct (Z.of_nat (String.length username) <? 3); reflexivity.
Qed.

(** C6: whatever a component of the repository is given, the hook cells
    its render leaves are the cells it found, changed by the queued
    [set] calls only; each handler it hands over is one framework [set]
    call and leaves every committed state as it was; and the function
    [App] gives to [useActionState] returns the same next state
    whatever state it is handed, so that the state is the stored value
    and nothing more. *)
Theorem state_changes_only_through_setters (c : component) (i : input) :
  match component_run c with
  | Some body =>
      match outcome (body i) with
      | inl (_, cbs, cells) => render_keeps i cells /\ Forall acts_by_setter cbs
      | inr _ => True
      end
  | None => True
  end.
Proof. apply component_keeps_state. Qed.

(** * Further properties *)

(** ** [action] at the edges of its input *)

(** X1: a submission with no [username] entry is not answered with a
    validation result: after the timer, reading the length of [null]
    raises a [TypeError]. *)
Theorem action_without_username_throws (preState : value) (formData : FormData) :
  formData_get formData "username" = None ->
  action preState formData =
  Await 1000 (Throw (TypeError "Cannot read properties of null (reading 'length')")).
Proof. intros Hu. unfold action. rewrite Hu. reflexivity. Qed.

Lemma action_without_username_throws_witness :
  action VUndefined [("id", Text "1"); ("name", Text "reza")] =
  Await 1000 (Throw (TypeError "Cannot read properties of null (reading 'length')")).
Proof. apply action_without_username_throws. reflexivity. Defined.

(** X2: a file in the [username] field passes the validation whatever
    its name: a file has no length, the comparison is false, and the
    success message shows the file as [[object File]]. *)
Theorem action_file_username_passes
    (preState : value) (formData : FormData) (name : string) :
  formData_get formData "username" = Some (File name) ->
  action preState formData =
  Await 1000
    (Ret (VObj [("success", VBool true);
                ("message",
                 VStr ("User " +:+ template (formData_get formData "id")
                       +:+ " updated to [object File]"))])).
Proof. intros Hu. unfold action. rewrite Hu. reflexivity. Qed.

Lemma action_file_username_passes_witness :
  action VUndefined [("username", File "a"); ("id", Text "1")] =
  Await 1000
    (Ret (VObj [("success", VBool true);
                ("message", VStr "User 1 updated to [object File]")])).
Proof.
  exact (action_file_username_passes VUndefined
           [("username", File "a"); ("id", Text "1")] "a" eq_refl).
Defined.

Lemma find_read_by_action (name : string) (formData : FormData) :
  read_by_action (name, Text "") = true ->
  find (fun e => String.eqb (fst e) name) (List.filter read_by_action formData) =
  find (fun e => String.eqb (fst e) name) formData.
Proof.
  intros Hname. induction formData as [|e rest IH]; [reflexivity|].
  simpl. destruct (read_by_action e) eqn:He; simpl.
  - destruct (String.eqb (fst e) name); [reflexivity|exact IH].
  - destruct (String.eqb (fst e) name) eqn:Hn; [|exact IH].
    apply String.eqb_eq in Hn. unfold read_by_action in *. simpl in Hname.
    rewrite Hn in He. congruence.
Qed.

(** X3: [action] looks at the entries named [username] and [id] and at
    nothing else: dropping every entry of another name from the form
    leaves the whole run as it was. *)
Theorem action_reads_username_and_id (preState : value) (formData : FormData) :
  action preState (List.filter read_by_action formData) = action preState formData.
Proof.
  unfold action, formData_get.
  rewrite !find_read_by_action by reflexivity. reflexivity.
Qed.

(** X4: whether [action] reports success depends on the [username]
    entry alone: two submissions with the same [username] entry end in
    the same error or in objects with the same [success]. *)
Theorem action_verdict_depends_on_username
    (p q : value) (formData formData' : FormData) :
  formData_get formData "username" = formData_get formData' "username" ->
  match outcome (action p formData), outcome (action q formData') with
  | inl v, inl v' => opt_prop v "success" = opt_prop v' "success"
  | inr e, inr e' => e = e'
  | _, _ => False
  end.
Proof.
  intros Hu. rewrite !action_outcome, <- Hu.
  destruct (formData_get formData "username") as [[username|name]|];
    [|reflexivity|reflexivity].
  destruct (Z.of_nat (String.length username) <? 3); reflexivity.
Qed.

Lemma action_verdict_depends_on_username_witness :
  match outcome (action VUndefined [("username", Text "ab"); ("id", Text "1")]),
        outcome (action VNull [("id", File "x"); ("username", Text "ab")]) with
  | inl v, inl v' => opt_prop v "success" = opt_prop v' "success"
  | inr e, inr e' => e = e'
  | _, _ => False
  end.
Proof. apply action_verdict_depends_on_username. reflexivity. Defined.

(** X5: every object [action] returns has a Boolean [success] and a
    non-empty string [message], so that the message paragraph of [App]
    is shown after every answered submission. *)
Theorem action_result_shape (preState : value) (formData : FormData) (v : value) :
  outcome (action preState formData) = inl v ->
  (exists b m, v = VObj [("success", VBool b); ("message", VStr m)]) /\
  truthy (opt_prop v "message") = true.
Proof.
  rewrite action_outcome.
  destruct (formData_get formData "username") as [[username|name]|];
    [| |discriminate].
  - destruct (Z.of_nat (String.length username) <? 3);
      intros Hv; injection Hv as <-; (split; [eauto|reflexivity]).
  - intros Hv. injection Hv as <-. split; [eauto|reflexivity].
Qed.

Lemma action_result_shape_witness :
  truthy (opt_prop (VObj [("success", VBool true);
                          ("message", VStr "User 1 updated to abc")]) "message") = true.
Proof.
  exact (proj2 (action_result_shape VUndefined (App_form "abc")
                  (VObj [("success", VBool true);
                         ("message", VStr "User 1 updated to abc")])
                  eq_refl)).
Defined.

(** ** The form of [App] *)

Lemma action_verdict (preState : value) (username : string) :
  outcome (action preState (App_form username)) = inl (verdict username).
Proof.
  rewrite action_outcome. unfold verdict. simpl.
  destruct (Z.of_nat (String.length username) <? 3); reflexivity.
Qed.

Lemma App_step_cell (e : App_event) (c : cell Z) (f : action_cell) :
  Forall (fun formData => exists username, formData = App_form username)
         (submitted f) ->
  exists c',
    outcome (App_step e (MkAppHooks (Some c) (Some f))) =
      inl (MkAppHooks (Some c') (Some (form_next f e))) /\
    Forall (fun formData => exists username, formData = App_form username)
           (submitted (form_next f e)).
Proof.
  intros Hq. destruct e as [| |username|]; cbn [App_step form_next].
  - eexists. split; [reflexivity|exact Hq].
  - rewrite outcome_fmap, App_run. eexists. split; [reflexivity|exact Hq].
  - eexists. split; [reflexivity|]. simpl. apply Forall_app. split; [exact Hq|].
    constructor; [eauto|constructor].
  - unfold App_settle, settle. cbn [form_slot count_slot].
    destruct f as [st [|formData rest]]; cbn [submitted state] in *.
    + eexists. split; [reflexivity|constructor].
    + apply Forall_cons in Hq as [[username ->] Hrest].
      rewrite !outcome_bind, action_verdict. cbn [outcome].
      eexists. split; [reflexivity|exact Hrest].
Qed.

Lemma App_play_cell (es : list App_event) (c : cell Z) (f : action_cell) :
  Forall (fun formData => exists username, formData = App_form username)
         (submitted f) ->
  exists c',
    outcome (App_play es (MkAppHooks (Some c) (Some f))) =
      inl (MkAppHooks (Some c') (Some (fold_left form_next es f))).
Proof.
  revert c f. induction es as [|e es IH]; intros c f Hq.
  - exists c. reflexivity.
  - destruct (App_step_cell e c f Hq) as (c1 & Hstep & Hq1).
    destruct (IH c1 _ Hq1) as (c2 & Hplay).
    exists c2. cbn [App_play fold_left]. rewrite outcome_bind, Hstep. exact Hplay.
Qed.

Lemma form_next_filter (es : list App_event) (f : action_cell) :
  fold_left form_next (List.filter is_form_event es) f = fold_left form_next es f.
Proof.
  revert f. induction es as [|e es IH]; intros f; [reflexivity|].
  destruct e; simpl; apply IH.
Qed.

Lemma form_next_submits (usernames : list string) (f : action_cell) :
  fold_left form_next (Submit <$> usernames) f =
  ActionCell (state f) (submitted f ++ (App_form <$> usernames)).
Proof.
  revert f. induction usernames as [|u us IH]; intros f.
  - destruct f. simpl. rewrite app_nil_r. reflexivity.
  - cbn [fmap list_fmap fold_left]. rewrite IH. simpl.
    rewrite <- app_assoc. reflexivity.
Qed.

Lemma form_next_settles (usernames : list string) (st : value) :
  fold_left form_next (repeat Settle (length usernames))
    (ActionCell st (App_form <$> usernames)) =
  ActionCell (fold_left (fun _ username => verdict username) usernames st) [].
Proof.
  revert st. induction usernames as [|u us IH]; intros st; [reflexivity|].
  cbn [length repeat fold_left fmap list_fmap form_next submitted state].
  rewrite action_verdict. apply IH.
Qed.

(** X6: when [App] has no submission waiting and the form is submitted
    with [username] typed in, then, once the action has run, the button
    reads "Submit" again and the form ends with the message paragraph:
    the validation message in red when the username has fewer than 3
    characters, the update message in green otherwise. *)
Theorem App_shows_validation_result
    (c : cell Z) (st : value) (username : string) :
  exists h view h',
    outcome (App_play [Submit username; Settle]
               (MkAppHooks (Some c) (Some (ActionCell st [])))) = inl h /\
    outcome (App h) = inl (view, h') /\
    App_submit_label view = Some [Txt "Submit"] /\
    App_feedback view =
      Some (if (String.length username <? 3)%nat then
              El "p" [("className", VStr "text-red-500")]
                [Val (VStr "Username must be at least 3 characters long")]
            else
              El "p" [("className", VStr "text-green-500")]
                [Val (VStr ("User 1 updated to " +:+ username))]).
Proof.
  destruct (App_play_cell [Submit username; Settle] c (ActionCell st []))
    as (c' & Hplay); [constructor|].
  cbn [fold_left form_next formAction submitted state app] in Hplay.
  rewrite action_verdict in Hplay.
  eexists _, _, _. split; [exact Hplay|]. rewrite App_run.
  split; [reflexivity|]. split; [reflexivity|].
  cbn [App_form_cell form_slot default state isPending submitted].
  unfold verdict.
  destruct (Nat.ltb_spec (String.length username) 3) as [Hlt|Hge].
  - assert ((Z.of_nat (String.length username) <? 3) = true) as ->
      by (apply Z.ltb_lt; lia).
    reflexivity.
  - assert ((Z.of_nat (String.length username) <? 3) = false) as ->
      by (apply Z.ltb_ge; lia).
    reflexivity.
Qed.

(** X7: from the submission of the form until the action has run, the
    button reads "Submitting..." and the message paragraph stays what it
    was before the submission. *)
Theorem App_pending_keeps_feedback
    (c : cell Z) (f : action_cell) (username : string) :
  exists view h1 h view' h',
    outcome (App (MkAppHooks (Some c) (Some f))) = inl (view, h1) /\
    outcome (App_play [Submit username] (MkAppHooks (Some c) (Some f))) = inl h /\
    outcome (App h) = inl (view', h') /\
    App_submit_label view' = Some [Txt "Submitting..."] /\
    App_feedback view' = App_feedback view.
Proof.
  eexists _, _, _, _, _. split; [rewrite App_run; reflexivity|].
  split; [reflexivity|]. split; [rewrite App_run; reflexivity|].
  destruct f as [st q]. split; [|reflexivity].
  cbn [App_form_cell form_slot App_onSubmit fmap option_fmap option_map default
       formAction submitted state isPending].
  destruct q; reflexivity.
Qed.

(** X8: clicks on the counter and renders never reach the form: after
    any events, the action cell of [App], its button and its message
    paragraph are those the submissions and action runs alone leave. *)
Theorem App_form_ignores_clicks (es : list App_event) (h : AppHooks) :
  App_mounted h ->
  exists h1 h2 v1 v2 g1 g2,
    outcome (App_play es h) = inl h1 /\
    outcome (App_play (List.filter is_form_event es) h) = inl h2 /\
    form_slot h1 = form_slot h2 /\
    outcome (App h1) = inl (v1, g1) /\
    outcome (App h2) = inl (v2, g2) /\
    App_submit_label v1 = App_submit_label v2 /\
    App_feedback v1 = App_feedback v2.
Proof.
  destruct h as [slot fslot]. intros ([c Hc] & f & Hf & Hq).
  simpl in Hc, Hf. subst slot fslot.
  destruct (App_play_cell es c f Hq) as (c1 & H1).
  destruct (App_play_cell (List.filter is_form_event es) c f Hq) as (c2 & H2).
  rewrite form_next_filter in H2.
  eexists _, _, _, _, _, _. split; [exact H1|]. split; [exact H2|].
  split; [reflexivity|]. rewrite !App_run.
  split; [reflexivity|]. split; [reflexivity|]. split; reflexivity.
Qed.

Lemma App_form_ignores_clicks_witness :
  exists h1 h2,
    outcome (App_play [Click; Submit "ab"; Render; Click; Settle]
               (MkAppHooks (Some (new_cell 0)) (Some (ActionCell VUndefined []))))
      = inl h1 /\
    outcome (App_play [Submit "ab"; Settle]
               (MkAppHooks (Some (new_cell 0)) (Some (ActionCell VUndefined []))))
      = inl h2 /\
    form_slot h1 = form_slot h2.
Proof.
  assert (App_mounted (MkAppHooks (Some (new_cell 0))
                         (Some (ActionCell VUndefined [])))) as Hm.
  { split; [eexists; reflexivity|].
    eexists. split; [reflexivity|]. constructor. }
  destruct (App_form_ignores_clicks [Click; Submit "ab"; Render; Click; Settle] _ Hm)
    as (h1 & h2 & _ & _ & _ & _ & H1 & H2 & Hs & _).
  exists h1, h2. split; [exact H1|]. split; [exact H2|exact Hs].
Defined.

(** X9: the submissions of the form are answered in order and each
    answer replaces the one before: when every submission has been run,
    [App] holds the answer to the last one, whatever the earlier ones
    were and whatever state it held before. *)
Theorem App_last_submission_wins
    (c : cell Z) (st : value) (earlier : list string) (username : string) :
  exists c',
    outcome (App_play ((Submit <$> (earlier ++ [username])%list)
                         ++ repeat Settle (S (length earlier)))%list
               (MkAppHooks (Some c) (Some (ActionCell st [])))) =
    inl (MkAppHooks (Some c') (Some (ActionCell (verdict username) []))).
Proof.
  destruct (App_play_cell ((Submit <$> (earlier ++ [username])%list)
                             ++ repeat Settle (S (length earlier)))%list
              c (ActionCell st [])) as (c' & Hplay); [constructor|].
  exists c'. rewrite Hplay. do 3 f_equal.
  rewrite fold_left_app, form_next_submits. cbn [state submitted app].
  replace (S (length earlier)) with (length (earlier ++ [username])%list)
    by (rewrite length_app; simpl; lia).
  rewrite form_next_settles, fold_left_app. reflexivity.
Qed.

(** ** The consumer without its provider *)

(** X10: with no [DataProvider] above it the consumer cannot render:
    the context gives [undefined], which cannot be destructured, and the
    render of the element ends in a [TypeError]. *)
Theorem consumer_needs_provider
    (env : gmap nat value) (d : nat) (kids : list node) (w : fibers) :
  env !! ctx_key dataContext = None ->
  outcome (DataConsumer env) = inr (TypeError "undefined is not iterable") /\
  outcome (render (S d) env (Use CDataConsumer kids) w) =
    inr (TypeError "undefined is not iterable").
Proof.
  intros Henv.
  assert (outcome (DataConsumer env) = inr (TypeError "undefined is not iterable"))
    as Hout.
  { unfold DataConsumer, useContext. rewrite Henv. reflexivity. }
  split; [exact Hout|].
  rewrite render_consumer, outcome_bind, Hout. reflexivity.
Qed.

Lemma consumer_needs_provider_witness :
  outcome (render 1 (provide ThemeContext VNull ∅) (Use CDataConsumer [])
             (Fibers (MkAppHooks None None) ∅ 0 [])) =
  inr (TypeError "undefined is not iterable").
Proof.
  apply (consumer_needs_provider (provide ThemeContext VNull ∅) 0 []).
  reflexivity.
Defined.

(** X11: below a provider whose value is an array with no function in
    second place (nothing there, or a value that is not a function), the
    consumer renders and shows the first item, and a click on its button
    ends in a [TypeError]: no cell is changed. *)
Theorem consumer_click_needs_function
    (items : list value) (env : gmap nat value) (store : gmap nat (cell value)) :
  is_function (default VUndefined (items !! 1%nat)) = false ->
  exists out,
    outcome (DataConsumer (provide dataContext (VArr items) env)) = inl out /\
    consumer_view out = consumer_screen (default VUndefined (items !! 0%nat)) /\
    consumer_onClick out store = Throw (TypeError "setData is not a function").
Proof.
  intros Hfn. unfold DataConsumer. rewrite useContext_provide.
  eexists. split; [reflexivity|]. split; [reflexivity|].
  cbn [consumer_onClick].
  destruct (default VUndefined (items !! 1%nat)); try reflexivity.
  discriminate Hfn.
Qed.

Lemma consumer_click_needs_function_witness :
  exists out,
    outcome (DataConsumer (provide dataContext (VArr [VStr "x"; VNum 7]) ∅)) = inl out /\
    consumer_view out = consumer_screen (VStr "x") /\
    consumer_onClick out ∅ = Throw (TypeError "setData is not a function").
Proof.
  apply (consumer_click_needs_function [VStr "x"; VNum 7] ∅ ∅).
  reflexivity.
Defined.

(** ** The provider and the consumer in a tree *)

(** X12: a click on the button of the consumer reaches the cell of its
    provider and nothing else: the cells of [App] and every other cell
    stay as they were, and the committed data of the provider changes
    only with the next render. *)
Theorem consumer_click_touches_own_cell (w : fibers) :
  exists w1 w2,
    outcome (demo_step DemoRender w) = inl w1 /\
    outcome (demo_step DemoClick w1) = inl w2 /\
    app_hooks w2 = app_hooks w /\
    (forall j, j <> 0%nat -> store w2 !! j = store w !! j) /\
    current <$> (store w2 !! 0%nat) = Some (demo_data w) /\
    demo_data w2 = VStr "Data has changed!".
Proof.
  eexists _, _. cbn [demo_step]. rewrite outcome_fmap, render_demo.
  cbn [outcome snd]. split; [reflexivity|].
  unfold click. cbn [clicks call mbind comp_mbind comp_bind outcome store app_hooks next].
  split; [reflexivity|]. split; [reflexivity|]. unfold setState.
  split; [|split].
  - intros j Hj. cbn [store].
    rewrite lookup_alter_ne, lookup_insert_ne by congruence.
    reflexivity.
  - cbn [store]. rewrite lookup_alter_eq, lookup_insert_eq. reflexivity.
  - unfold demo_data. cbn [store].
    rewrite lookup_alter_eq, lookup_insert_eq. cbn [fmap option_fmap option_map].
    unfold provider_cell at 1. cbn [default]. apply flush_SetTo.
Qed.

Section MoreRenderEquations.
Implicit Types (d : nat) (env : gmap nat value) (w : fibers) (kids : list node).

Lemma render_Form d env kids w :
  render (S d) env (Use CForm kids) w = out ← Form env; render d env out w.
Proof. reflexivity. Qed.

End MoreRenderEquations.

Lemma provider_cell_idem (slot : option (cell value)) :
  provider_cell (Some (provider_cell slot)) = provider_cell slot.
Proof. reflexivity. Qed.

Lemma provider_cell_set (v : value) (c : cell value) :
  current (provider_cell (Some (dispatch (SetTo v) c))) = v.
Proof. unfold provider_cell. cbn [default]. apply flush_SetTo. Qed.

Lemma render_nested (w : fibers) :
  render_root 10 nested w =
  Hook UseState (Hook UseState (Hook UseContext
    (Ret (nested_screen (current (provider_cell (store w !! 0%nat)))
                        (current (provider_cell (store w !! 1%nat))),
          Fibers (app_hooks w)
            (<[1%nat := provider_cell (store w !! 1%nat)]>
               (<[0%nat := provider_cell (store w !! 0%nat)]> (store w)))
            2 [call (VSetState 1) changed_data])))).
Proof.
  unfold render_root, nested.
  rewrite render_provider, DataProvider_run.
  cbn [mbind comp_mbind comp_bind store next app_hooks clicks].
  rewrite render_Provide, render_all_cons, render_provider, DataProvider_run.
  cbn [mbind comp_mbind comp_bind store next app_hooks clicks].
  rewrite lookup_insert_ne by discriminate.
  rewrite render_Provide, render_all_cons, render_consumer, DataConsumer_run.
  cbn [mbind comp_mbind comp_bind store next app_hooks clicks
       consumer_view consumer_onClick].
  rewrite (proj1 (render_static 3)) by reflexivity.
  cbn [mbind comp_mbind comp_bind].
  rewrite !render_all_nil.
  reflexivity.
Qed.

(** X14: of two providers, one below the other, the consumer reads the
    nearer one and its click reaches the nearer one only: after the
    click the inner provider holds the string of the handler and the
    outer one the data it held before. *)
Theorem nested_consumer_uses_nearest_provider (w : fibers) :
  exists w1 w2 w3,
    outcome (render_root 10 nested w) =
      inl (nested_screen (current (provider_cell (store w !! 0%nat)))
                         (current (provider_cell (store w !! 1%nat))), w1) /\
    outcome (click w1) = inl w2 /\
    outcome (render_root 10 nested w2) =
      inl (nested_screen (current (provider_cell (store w !! 0%nat)))
                         (VStr "Data has changed!"), w3).
Proof.
  eexists _, _, _. rewrite render_nested. split; [reflexivity|].
  unfold click. cbn [clicks call mbind comp_mbind comp_bind outcome
                     store app_hooks next].
  split; [reflexivity|]. rewrite render_nested. cbn [outcome store].
  unfold setState.
  rewrite lookup_alter_ne, lookup_insert_ne, lookup_insert_eq by discriminate.
  rewrite lookup_alter_eq, lookup_insert_eq.
  cbn [fmap option_fmap option_map].
  rewrite provider_cell_idem, provider_cell_set.
  reflexivity.
Qed.

Lemma Form_run (env : gmap nat value) :
  Form env =
  Hook UseContext (Ret (Form_view (default VNull (env !! ctx_key ThemeContext)))).
Proof. reflexivity. Qed.

Lemma lookup_provide_eq (c : context) (v : value) (env : gmap nat value) :
  provide c v env !! ctx_key c = Some v.
Proof. apply lookup_insert_eq. Qed.

Lemma lookup_provide_ne (c : context) (v : value) (env : gmap nat value) (k : nat) :
  ctx_key c <> k -> provide c v env !! k = env !! k.
Proof. intros Hk. apply lookup_insert_ne, Hk. Qed.

(** X15: [Form] names its hidden input after the value of the nearest
    provider of [ThemeContext], whatever that value is, [undefined]
    included; a provider of [ThemeContext] further up and a provider of
    another context in between make no difference. *)
Theorem Form_reads_nearest_theme (outer theme data : value) (w : fibers) :
  outcome (render_root 10
             (Provide ThemeContext outer
                [Provide ThemeContext theme
                   [Provide dataContext data [Use CForm []]]]) w) =
  inl (Provide ThemeContext outer
         [Provide ThemeContext theme
            [Provide dataContext data [Form_view theme]]],
       Fibers (app_hooks w) (store w) 0 []).
Proof.
  unfold render_root.
  rewrite render_Provide, render_all_cons, render_Provide, render_all_cons,
    render_Provide, render_all_cons, render_Form, Form_run.
  rewrite lookup_provide_ne, lookup_provide_eq by discriminate.
  cbn [mbind comp_mbind comp_bind default].
  rewrite (proj1 (render_static 3)) by reflexivity.
  cbn [mbind comp_mbind comp_bind].
  rewrite !render_all_nil.
  reflexivity.
Qed.

(** ** Rendering again *)

(** X16: a render of [App] with no event since the render before shows
    the same elements and leaves the hook cells as they are. *)
Theorem App_rerender_changes_nothing (h : AppHooks) :
  exists view h1,
    outcome (App h) = inl (view, h1) /\
    outcome (App h1) = inl (view, h1).
Proof.
  eexists _, _. rewrite App_run. split; [reflexivity|].
  rewrite App_run. reflexivity.
Qed.

(** X17: a render of the provider and the consumer with no click since
    the render before shows the same elements and leaves the cells and
    the handler as they are. *)
Theorem demo_rerender_changes_nothing (w : fibers) :
  exists screen w1,
    outcome (render_root 8 demo w) = inl (screen, w1) /\
    outcome (render_root 8 demo w1) = inl (screen, w1).
Proof.
  eexists _, _. rewrite render_demo. split; [reflexivity|].
  rewrite render_demo. cbn [outcome store app_hooks].
  rewrite lookup_insert_eq, provider_cell_idem, insert_insert_eq.
  reflexivity.
Qed.
